(** * verify_respawn.py: the event and state reporter

    A shallow embedding of [src/verify_respawn.py] and the properties of
    its observable behaviour: the requests it issues, what it prints and
    whether it ends normally or with an unhandled exception.

    Conventions of the model.
    - A Python [str] is the list of its Unicode code points.
    - A value decoded by [response.json()] is a [pyval].  A [float] is
      carried by its shortest [repr] text: the script does no arithmetic,
      it only formats values.  That text has no surrogate.
    - A [dict] is its list of items in insertion order; subscripting takes
      the first item with the key.
    - Exceptions are the subclasses of [Exception] the script can meet.
      The messages with which [requests.get] and [response.json()] raise
      have no surrogate.
    - Standard output is a UTF-8 text stream with strict error handling:
      [print] writes its text whole, or raises [UnicodeEncodeError] and
      writes nothing when the text has a surrogate code point.
    - The semantics of the built-ins is that of CPython 3.11. *)

From Stdlib Require Import List NArith ZArith Bool Ascii Lia.
From Stdlib Require String DecimalString.
Import ListNotations String.StringSyntax.

Set Warnings "-register-all".

Local Open Scope N_scope.
Local Open Scope list_scope.

(* ===================================================================== *)
(** ** Python strings *)
(* ===================================================================== *)

Definition pystr := list N.

(** A literal of the source, as code points. *)
Definition lit (s : String.string) : pystr :=
  map N_of_ascii (String.list_ascii_of_string s).

Arguments lit s%_string_scope.

Definition pystr_eqb (a b : pystr) : bool :=
  if list_eq_dec N.eq_dec a b then true else false.

(** [sep.join(parts)] *)
Fixpoint join (sep : pystr) (parts : list pystr) : pystr :=
  match parts with
  | [] => []
  | [p] => p
  | p :: rest => p ++ sep ++ join sep rest
  end.

(** [s * n] *)
Definition str_mul (s : pystr) (n : nat) : pystr :=
  concat (repeat s n).

Definition QUOTE : N := 34.      (* the double quote *)
Definition APOS : N := 39.       (* the single quote *)
Definition BACKSLASH : N := 92.
Definition NEWLINE : N := 10.

Definition hex_digit (d : N) : N :=
  if d <? 10 then 48 + d else 87 + d.   (* 0-9, a-f *)

(** [width] lower-case hexadecimal digits of [n], as in ['{:04x}']. *)
Fixpoint hex_fixed (width : nat) (n : N) : pystr :=
  match width with
  | O => []
  | S w => hex_fixed w (n / 16) ++ [hex_digit (n mod 16)]
  end.

(** [str(z)] for an [int]. *)
Definition int_str (z : Z) : pystr :=
  lit (DecimalString.NilZero.string_of_int (Z.to_int z)).

(** The code points UTF-8 does not encode. *)
Definition is_surrogate (c : N) : bool := (0xD800 <=? c) && (c <=? 0xDFFF).

(** Whether UTF-8 standard output takes the text. *)
Definition encodable (s : pystr) : bool :=
  forallb (fun c => negb (is_surrogate c)) s.

(** The first surrogate of [s]: its index, counting from [i], and the
    text from there on. *)
Fixpoint find_surrogate (i : nat) (s : pystr) : option (nat * pystr) :=
  match s with
  | [] => None
  | c :: rest =>
      if is_surrogate c then Some (i, s) else find_surrogate (S i) rest
  end.

(** How many surrogates [s] starts with. *)
Fixpoint surrogate_run (s : pystr) : nat :=
  match s with
  | c :: rest => if is_surrogate c then S (surrogate_run rest) else O
  | [] => O
  end.

(** [str(e)] of the [UnicodeEncodeError] that encoding [s] raises: it
    names the first run of surrogates. *)
Definition encode_error_message (s : pystr) : pystr :=
  match find_surrogate 0 s with
  | None => []
  | Some (start, tail) =>
      let run := surrogate_run tail in
      if Nat.eqb run 1 then
        lit "'utf-8' codec can't encode character '\u"
        ++ hex_fixed 4 (hd 0 tail)
        ++ lit "' in position " ++ int_str (Z.of_nat start)
        ++ lit ": surrogates not allowed"
      else
        lit "'utf-8' codec can't encode characters in position "
        ++ int_str (Z.of_nat start) ++ lit "-"
        ++ int_str (Z.of_nat (start + run - 1))
        ++ lit ": surrogates not allowed"
  end.

(** Text that standard output can encode. *)
Record text : Type := Text {
  chars :> pystr;
  chars_encodable : encodable chars = true
}.

(* ===================================================================== *)
(** ** Decoded JSON values *)
(* ===================================================================== *)

Inductive pyval : Type :=
| PNone
| PBool (b : bool)
| PInt (z : Z)
| PFloat (repr : text)
| PStr (s : pystr)
| PList (items : list pyval)
| PDict (items : list (pystr * pyval)).

(** The first item of a dict with key [k]. *)
Fixpoint dict_get (k : pystr) (items : list (pystr * pyval)) : option pyval :=
  match items with
  | [] => None
  | (k', v) :: rest => if pystr_eqb k' k then Some v else dict_get k rest
  end.

(** The name of a value's class, as error messages print it. *)
Definition type_name (v : pyval) : pystr :=
  match v with
  | PNone => lit "NoneType"
  | PBool _ => lit "bool"
  | PInt _ => lit "int"
  | PFloat _ => lit "float"
  | PStr _ => lit "str"
  | PList _ => lit "list"
  | PDict _ => lit "dict"
  end.

(* ===================================================================== *)
(** ** Formatting: [repr], [str] and [json.dumps(_, indent=2)] *)
(* ===================================================================== *)

(** [str.isprintable] on one code point outside ASCII: a table of the
    interpreter's Unicode database, which [repr] consults. *)
Class UnicodeData : Type := unicode_printable : N -> bool.

Section Formatting.

Context {ucd : UnicodeData}.

Definition repr_char (quote c : N) : pystr :=
  if (c =? quote) || (c =? BACKSLASH) then [BACKSLASH; c]
  else if c =? 9 then lit "\t"
  else if c =? 10 then lit "\n"
  else if c =? 13 then lit "\r"
  else if (c <? 32) || (c =? 127) then lit "\x" ++ hex_fixed 2 c
  else if c <? 127 then [c]
  else if unicode_printable c then [c]
  else if c <=? 255 then lit "\x" ++ hex_fixed 2 c
  else if c <=? 65535 then lit "\u" ++ hex_fixed 4 c
  else lit "\U" ++ hex_fixed 8 c.

Definition has_char (c : N) (s : pystr) : bool := existsb (N.eqb c) s.

(** [repr(s)] for a [str]: single quotes unless the text has one and no
    double quote. *)
Definition str_repr (s : pystr) : pystr :=
  let quote := if has_char APOS s && negb (has_char QUOTE s)
               then QUOTE else APOS in
  [quote] ++ flat_map (repr_char quote) s ++ [quote].

Fixpoint py_repr (v : pyval) : pystr :=
  match v with
  | PNone => lit "None"
  | PBool true => lit "True"
  | PBool false => lit "False"
  | PInt z => int_str z
  | PFloat r => r
  | PStr s => str_repr s
  | PList items =>
      lit "[" ++ join (lit ", ") (map py_repr items) ++ lit "]"
  | PDict items =>
      lit "{"
      ++ join (lit ", ")
           (map (fun kv => let '(k, x) := kv in
                           str_repr k ++ lit ": " ++ py_repr x) items)
      ++ lit "}"
  end.

(** [str(v)], what an f-string field [{v}] expands to. *)
Definition py_str (v : pyval) : pystr :=
  match v with
  | PStr s => s
  | _ => py_repr v
  end.

End Formatting.

(** One character of a JSON string with [ensure_ascii] on. *)
Definition json_char (c : N) : pystr :=
  if c =? BACKSLASH then [BACKSLASH; BACKSLASH]
  else if c =? QUOTE then [BACKSLASH; QUOTE]
  else if c =? 8 then lit "\b"
  else if c =? 12 then lit "\f"
  else if c =? 10 then lit "\n"
  else if c =? 13 then lit "\r"
  else if c =? 9 then lit "\t"
  else if (32 <=? c) && (c <=? 126) then [c]
  else if c <? 65536 then lit "\u" ++ hex_fixed 4 c
  else
    let n := c - 65536 in
    let s1 := N.lor 55296 (N.land (N.shiftr n 10) 1023) in
    let s2 := N.lor 56320 (N.land n 1023) in
    lit "\u" ++ hex_fixed 4 s1 ++ lit "\u" ++ hex_fixed 4 s2.

Definition json_str (s : pystr) : pystr :=
  [QUOTE] ++ flat_map json_char s ++ [QUOTE].

(** [float.__repr__] as the encoder spells it. *)
Definition json_float (r : pystr) : pystr :=
  if pystr_eqb r (lit "nan") then lit "NaN"
  else if pystr_eqb r (lit "inf") then lit "Infinity"
  else if pystr_eqb r (lit "-inf") then lit "-Infinity"
  else r.

(** A line break followed by the indentation of nesting [level]. *)
Definition newline_indent (level : nat) : pystr :=
  [NEWLINE] ++ str_mul (lit " ") (2 * level).

Fixpoint json_dumps_at (level : nat) (v : pyval) : pystr :=
  match v with
  | PNone => lit "null"
  | PBool true => lit "true"
  | PBool false => lit "false"
  | PInt z => int_str z
  | PFloat r => json_float r
  | PStr s => json_str s
  | PList [] => lit "[]"
  | PList items =>
      lit "[" ++ newline_indent (S level)
      ++ join (lit "," ++ newline_indent (S level))
           (map (json_dumps_at (S level)) items)
      ++ newline_indent level ++ lit "]"
  | PDict [] => lit "{}"
  | PDict items =>
      lit "{" ++ newline_indent (S level)
      ++ join (lit "," ++ newline_indent (S level))
           (map (fun kv => let '(k, x) := kv in
                           json_str k ++ lit ": " ++ json_dumps_at (S level) x)
              items)
      ++ newline_indent level ++ lit "}"
  end.

(** [json.dumps(v, indent=2)] *)
Definition json_dumps_indent2 (v : pyval) : pystr := json_dumps_at 0 v.

(* ===================================================================== *)
(** ** Exceptions, effects and the script monad *)
(* ===================================================================== *)

Inductive exn : Type :=
| KeyError (key : pystr)
| TypeError (msg : pystr)
| RequestException (msg : pystr)
| JSONDecodeError (msg : pystr)
| UnicodeEncodeError (msg : pystr).

(** What the script does to the outside, in order. *)
Inductive effect : Type :=
| EGet (url : pystr)
| EPrint (text : pystr).

Inductive outcome (A : Type) : Type :=
| Done (a : A)
| Raised (e : exn).

Arguments Done {A} a.
Arguments Raised {A} e.

(** A statement: the effects it performed and how it ended. *)
Definition Script (A : Type) : Type := (list effect * outcome A)%type.

Definition ret {A} (a : A) : Script A := ([], Done a).

Definition raise {A} (e : exn) : Script A := ([], Raised e).

Definition bind {A B} (m : Script A) (k : A -> Script B) : Script B :=
  match m with
  | (t, Done a) => let '(t', r) := k a in (t ++ t', r)
  | (t, Raised e) => (t, Raised e)
  end.

(** [try: body  except Exception as e: handler e] *)
Definition try_except {A} (body : Script A) (handler : exn -> Script A)
  : Script A :=
  match body with
  | (t, Raised e) => let '(t', r) := handler e in (t ++ t', r)
  | finished => finished
  end.

Declare Scope script_scope.
Delimit Scope script_scope with script.
Bind Scope script_scope with Script.

Notation "x <- c ;; k" := (bind c (fun x => k))
  (at level 61, c at next level, right associativity) : script_scope.
Notation "c ;; k" := (bind c (fun _ => k))
  (at level 61, right associativity) : script_scope.

Local Open Scope script_scope.

(** [print(s)]: the text goes out whole, or not at all. *)
Definition print (s : pystr) : Script unit :=
  if encodable s then ([EPrint s], Done tt)
  else raise (UnicodeEncodeError (encode_error_message s)).

(** [for x in items: body x] *)
Fixpoint for_each {A} (items : list A) (body : A -> Script unit)
  : Script unit :=
  match items with
  | [] => ret tt
  | x :: rest => body x ;; for_each rest body
  end.

(** The effects of a run and the text it leaves on standard output. *)
Definition effects {A} (run : Script A) : list effect := fst run.
Definition result {A} (run : Script A) : outcome A := snd run.

Definition printed (t : list effect) : list pystr :=
  flat_map (fun e => match e with EPrint s => [s] | EGet _ => [] end) t.

Definition requested (t : list effect) : list pystr :=
  flat_map (fun e => match e with EGet u => [u] | EPrint _ => [] end) t.

Definition stdout {A} (run : Script A) : pystr :=
  flat_map (fun s => s ++ [NEWLINE]) (printed (effects run)).

(* ===================================================================== *)
(** ** The service and the built-ins the script calls *)
(* ===================================================================== *)

Inductive body : Type :=
| NotJson (msg : text)           (* [response.json()] raises with [msg] *)
| Json (v : pyval).

Inductive reply : Type :=
| ConnectionFailure (msg : text)   (* [requests.get] raises with [msg] *)
| Response (b : body).

(** The HTTP service: what a GET of each URL meets. *)
Definition service := pystr -> reply.

Definition requests_get (srv : service) (url : pystr) : Script body :=
  ([EGet url],
   match srv url with
   | ConnectionFailure msg => Raised (RequestException msg)
   | Response b => Done b
   end).

Definition response_json (response : body) : Script pyval :=
  match response with
  | NotJson msg => raise (JSONDecodeError msg)
  | Json v => ret v
  end.

(** [v[key]] for a [str] key. *)
Definition getitem (v : pyval) (key : pystr) : Script pyval :=
  match v with
  | PDict items =>
      match dict_get key items with
      | Some x => ret x
      | None => raise (KeyError key)
      end
  | PList _ =>
      raise (TypeError (lit "list indices must be integers or slices, not str"))
  | PStr _ =>
      raise (TypeError (lit "string indices must be integers, not 'str'"))
  | _ =>
      raise (TypeError (lit "'" ++ type_name v
                        ++ lit "' object is not subscriptable"))
  end.

(** [l[start:]] on a sequence. *)
Definition slice_from {A} (start : Z) (l : list A) : list A :=
  let len := Z.of_nat (length l) in
  let lo := if (start <? 0)%Z then Z.max (start + len) 0
            else Z.min start len in
  skipn (Z.to_nat lo) l.

(** The items that [for x in v[start:]] visits. *)
Definition iter_slice_from (start : Z) (v : pyval) : Script (list pyval) :=
  match v with
  | PList items => ret (slice_from start items)
  | PStr s => ret (map (fun c => PStr [c]) (slice_from start s))
  | PDict _ => raise (TypeError (lit "unhashable type: 'slice'"))
  | _ =>
      raise (TypeError (lit "'" ++ type_name v
                        ++ lit "' object is not subscriptable"))
  end.

(** [v in candidates] for a list of [str] literals. *)
Definition py_in (v : pyval) (candidates : list pystr) : bool :=
  match v with
  | PStr s => existsb (pystr_eqb s) candidates
  | _ => false
  end.

(* ===================================================================== *)
(** ** The script *)
(* ===================================================================== *)

Definition API_URL : pystr := lit "http://localhost:3000".

Definition SHOWN_TYPES : list pystr :=
  [lit "death"; lit "respawn_attempt"; lit "spawn"; lit "reconnect";
   lit "chat"; lit "health"].

(** The success message; its last three characters are U+00E2, U+0153
    and U+201C, as the source file has them. *)
Definition ALIVE_MESSAGE : pystr :=
  [NEWLINE] ++ lit "Bot is alive and connected! " ++ [0xE2; 0x153; 0x201C].

Section VerifyRespawn.

Context {ucd : UnicodeData}.

Local Abbreviation str := py_str.

(** [str(e)]: a [KeyError] shows the [repr] of its key. *)
Definition exn_str (e : exn) : pystr :=
  match e with
  | KeyError key => str_repr key
  | TypeError msg => msg
  | RequestException msg => msg
  | JSONDecodeError msg => msg
  | UnicodeEncodeError msg => msg
  end.

(** The body of the loop over the sliced events. *)
Definition show_event (event : pyval) : Script unit :=
  ty <- getitem event (lit "type") ;;
  if py_in ty SHOWN_TYPES then
    timestamp <- getitem event (lit "timestamp") ;;
    event_type <- getitem event (lit "type") ;;
    data <- getitem event (lit "data") ;;
    print (str event_type ++ lit ": " ++ json_dumps_indent2 data)
  else ret tt.

(** Lines 8-9: fetch and decode the events. *)
Definition fetch_events (srv : service) : Script pyval :=
  response <- requests_get srv (API_URL ++ lit "/events") ;;
  decoded <- response_json response ;;
  getitem decoded (lit "events").

(** Lines 12-20: the header and the loop. *)
Definition report_events (events : pyval) : Script unit :=
  print (lit "Recent bot events:") ;;
  print (str_mul (lit "-") 50) ;;
  sliced <- iter_slice_from (-20) events ;;
  for_each sliced show_event.

(** Lines 28-32: the prints of the [try] body. *)
Definition show_state (state : pyval) : Script unit :=
  health <- getitem state (lit "health") ;;
  print (lit "Health: " ++ str health ++ lit "/20") ;;
  food <- getitem state (lit "food") ;;
  print (lit "Food: " ++ str food ++ lit "/20") ;;
  position <- getitem state (lit "position") ;;
  print (lit "Position: " ++ str position) ;;
  gameMode <- getitem state (lit "gameMode") ;;
  print (lit "Game Mode: " ++ str gameMode) ;;
  print ALIVE_MESSAGE.

(** Lines 26-32: the body of the [try]. *)
Definition state_body (srv : service) : Script unit :=
  response <- requests_get srv (API_URL ++ lit "/state") ;;
  state <- response_json response ;;
  show_state state.

(** Lines 33-35: the handler. *)
Definition state_handler (e : exn) : Script unit :=
  print (lit "Error getting state: " ++ exn_str e) ;;
  print (lit "Bot may be disconnected").

(** Lines 23-35. *)
Definition report_state (srv : service) : Script unit :=
  print ([NEWLINE] ++ str_mul (lit "-") 50) ;;
  print (lit "Current bot state:") ;;
  try_except (state_body srv) state_handler.

(** The whole script. *)
Definition verify_respawn (srv : service) : Script unit :=
  events <- fetch_events srv ;;
  report_events events ;;
  report_state srv.

End VerifyRespawn.


(* ===================================================================== *)
(** ** Vocabulary of the properties *)
(* ===================================================================== *)

(** The two URLs the script requests. *)
Definition EVENTS_URL : pystr := API_URL ++ lit "/events".
Definition STATE_URL : pystr := API_URL ++ lit "/state".

(** Lines 8-20: everything before the state is looked at. *)
Definition events_phase {ucd : UnicodeData} (srv : service) : Script unit :=
  events <- fetch_events srv ;;
  report_events events.

(** The fields the state reporter prints, in the order it reads them. *)
Definition STATE_FIELDS : list pystr :=
  [lit "health"; lit "food"; lit "position"; lit "gameMode"].

(** A service that answers the two URLs and nothing else. *)
Definition serve (on_events on_state : reply) : service :=
  fun url =>
    if pystr_eqb url EVENTS_URL then on_events
    else if pystr_eqb url STATE_URL then on_state
    else Response
           (NotJson (Text (lit "Expecting value: line 1 column 1 (char 0)")
                          eq_refl)).

(** The fields of an event that has the shape of the data model: an
    object with [type], [timestamp] and [data]. *)
Definition event_fields (event : pyval) : option (pyval * pyval * pyval) :=
  match event with
  | PDict items =>
      match dict_get (lit "type") items,
            dict_get (lit "timestamp") items,
            dict_get (lit "data") items with
      | Some ty, Some ts, Some data => Some (ty, ts, data)
      | _, _, _ => None
      end
  | _ => None
  end.

(** The line the reporter owes an event of the data model: its type and
    its data, when the type is one of the shown ones. *)
Definition event_line {ucd : UnicodeData} (event : pyval) : list pystr :=
  match event_fields event with
  | Some (ty, _, data) =>
      if py_in ty SHOWN_TYPES
      then [py_str ty ++ lit ": " ++ json_dumps_indent2 data]
      else []
  | None => []
  end.

(** Two events that differ at most in the value of [timestamp]. *)
Definition same_item_but_timestamp (kv kv' : pystr * pyval) : Prop :=
  fst kv = fst kv' /\ (fst kv <> lit "timestamp" -> snd kv = snd kv').

Definition same_but_timestamp (e e' : pyval) : Prop :=
  e = e' \/
  exists items items',
    e = PDict items /\ e' = PDict items' /\
    Forall2 same_item_but_timestamp items items'.

(** The scenario of the specification: a chat event, an event of unknown
    type, and a bot in good health. *)
Definition scenario_events : list pyval :=
  [PDict [(lit "type", PStr (lit "chat"));
          (lit "timestamp", PInt 1);
          (lit "data", PDict [(lit "msg", PStr (lit "hi"))])];
   PDict [(lit "type", PStr (lit "unknown"));
          (lit "timestamp", PInt 2);
          (lit "data", PDict [])]].

Definition scenario_state : pyval :=
  PDict [(lit "health", PInt 20);
         (lit "food", PInt 18);
         (lit "position",
          PDict [(lit "x", PInt 0); (lit "y", PInt 64); (lit "z", PInt 0)]);
         (lit "gameMode", PStr (lit "survival"))].

Definition events_reply (events : list pyval) : reply :=
  Response (Json (PDict [(lit "events", PList events)])).

Definition scenario_service : service :=
  serve (events_reply scenario_events) (Response (Json scenario_state)).

(** Sample inputs: a service whose events request is refused, an object
    without [type], a list of 21 events whose first is a chat event, and
    the scenario's events with other timestamps. *)
Definition refused : reply :=
  ConnectionFailure (Text (lit "Connection refused") eq_refl).

Definition untyped_event : pyval :=
  PDict [(lit "timestamp", PInt 3); (lit "data", PDict [])].

Definition unknown_event : pyval :=
  PDict [(lit "type", PStr (lit "unknown"));
         (lit "timestamp", PInt 2);
         (lit "data", PDict [])].

Definition chat_event : pyval :=
  PDict [(lit "type", PStr (lit "chat"));
         (lit "timestamp", PInt 1);
         (lit "data", PDict [(lit "msg", PStr (lit "hi"))])].

Definition unstamped_items : list (pystr * pyval) :=
  [(lit "type", PStr (lit "chat"));
   (lit "data", PDict [(lit "msg", PStr (lit "hi"))])].

Definition unstamped_event : pyval := PDict unstamped_items.

Definition long_events : list pyval := chat_event :: repeat unknown_event 20.

Definition restamped_events : list pyval :=
  [PDict [(lit "type", PStr (lit "chat"));
          (lit "timestamp", PInt 1700000000);
          (lit "data", PDict [(lit "msg", PStr (lit "hi"))])];
   PDict [(lit "type", PStr (lit "unknown"));
          (lit "timestamp", PStr (lit "2024-01-01T00:00:00Z"));
          (lit "data", PDict [])]].

(** The values that [v[-20:]] slices into a sequence the loop can visit. *)
Definition sliceable (v : pyval) : bool :=
  match v with
  | PList _ | PStr _ => true
  | _ => false
  end.

(** More sample inputs: events whose types are not shown (one of them not
    even a string, neither with the other fields), and two state objects
    that agree on the four fields. *)
Definition numbered_event : pyval := PDict [(lit "type", PInt 5)].

Definition bare_unknown_event : pyval :=
  PDict [(lit "type", PStr (lit "unknown"))].

Definition state_without_mode : list (pystr * pyval) :=
  [(lit "health", PInt 20); (lit "food", PInt 18);
   (lit "position", PList [PInt 0; PInt 64; PInt 0])].


Definition state_with_extras : pyval :=
  PDict [(lit "yaw", PFloat (Text (lit "1.5") eq_refl));
         (lit "gameMode", PStr (lit "survival"));
         (lit "position",
          PDict [(lit "x", PInt 0); (lit "y", PInt 64); (lit "z", PInt 0)]);
         (lit "food", PInt 18);
         (lit "health", PInt 20)].

(** A table for the sample runs: the printable part of Latin-1. *)
Definition latin1_table : UnicodeData :=
  fun c => (161 <=? c) && (c <=? 255) && negb (c =? 173).

(* ===================================================================== *)
(** ** Laws of the script monad *)
(* ===================================================================== *)

Lemma bind_done {A B} (t : list effect) (a : A) (k : A -> Script B) :
  bind (t, Done a) k = (t ++ effects (k a), result (k a)).
Proof. unfold bind, effects, result. destruct (k a); reflexivity. Qed.

Lemma bind_raised {A B} (t : list effect) (e : exn) (k : A -> Script B) :
  bind (t, Raised e) k = (t, Raised e).
Proof. reflexivity. Qed.

Lemma bind_ret_l {A B} (a : A) (k : A -> Script B) : bind (ret a) k = k a.
Proof. unfold ret. rewrite bind_done. destruct (k a); reflexivity. Qed.

Lemma bind_assoc {A B C} (m : Script A) (k : A -> Script B)
      (h : B -> Script C) :
  bind (bind m k) h = bind m (fun a => bind (k a) h).
Proof.
  destruct m as [t [a | e]]; [| reflexivity].
  unfold bind at 2 3. destruct (k a) as [t1 [b | e1]] eqn:Hk.
  - unfold bind. destruct (h b) as [t2 r2]. now rewrite app_assoc.
  - reflexivity.
Qed.

(** ** What standard output can encode *)

Lemma encodable_app (a b : pystr) :
  encodable (a ++ b) = encodable a && encodable b.
Proof. apply forallb_app. Qed.

Lemma below_surrogates (s : pystr) :
  Forall (fun c => c < 0xD800) s -> encodable s = true.
Proof.
  intros H. apply forallb_forall. intros c Hin.
  rewrite Forall_forall in H. specialize (H c Hin).
  unfold is_surrogate. apply negb_true_iff, andb_false_intro1, N.leb_gt, H.
Qed.

(** A literal of the source has no surrogate. *)
Lemma encodable_lit (s : String.string) : encodable (lit s) = true.
Proof.
  apply below_surrogates. unfold lit. apply Forall_map, Forall_forall.
  intros a _. pose proof (N_ascii_bounded a). lia.
Qed.

Lemma encodable_text (t : text) : encodable t = true.
Proof. apply chars_encodable. Qed.

Lemma encodable_hex_fixed width n : encodable (hex_fixed width n) = true.
Proof.
  revert n. induction width as [| w IH]; intros n; [reflexivity |].
  cbn [hex_fixed]. rewrite encodable_app, IH. cbn [andb].
  apply below_surrogates. constructor; [| constructor].
  unfold hex_digit. pose proof (N.mod_lt n 16).
  destruct (n mod 16 <? 10); lia.
Qed.

Lemma encodable_int_str z : encodable (int_str z) = true.
Proof. apply encodable_lit. Qed.

(** The message of an encoding error is ASCII. *)
Lemma encodable_encode_error_message s :
  encodable (encode_error_message s) = true.
Proof.
  unfold encode_error_message.
  destruct (find_surrogate 0 s) as [[start tail] |]; [| reflexivity].
  destruct (Nat.eqb (surrogate_run tail) 1);
    now rewrite !encodable_app, ?encodable_lit, ?encodable_hex_fixed,
      ?encodable_int_str.
Qed.

Lemma print_done (s : pystr) :
  encodable s = true -> print s = ([EPrint s], Done tt).
Proof. intros H. unfold print. now rewrite H. Qed.

Lemma print_raised (s : pystr) :
  encodable s = false ->
  print s = ([], Raised (UnicodeEncodeError (encode_error_message s))).
Proof. intros H. unfold print. now rewrite H. Qed.

Lemma bind_print {B} (s : pystr) (k : unit -> Script B) :
  encodable s = true ->
  bind (print s) k = (EPrint s :: effects (k tt), result (k tt)).
Proof. intros H. now rewrite (print_done s H), bind_done. Qed.

Lemma surjective_run {A} (m : Script A) : m = (effects m, result m).
Proof. now destruct m. Qed.

Lemma printed_app (t t' : list effect) :
  printed (t ++ t') = printed t ++ printed t'.
Proof. unfold printed. apply flat_map_app. Qed.

Lemma requested_app (t t' : list effect) :
  requested (t ++ t') = requested t ++ requested t'.
Proof. unfold requested. apply flat_map_app. Qed.

(** A loop whose body always completes runs every iteration in order. *)
Lemma for_each_done {A} (items : list A) (f : A -> Script unit) :
  (forall x, In x items -> result (f x) = Done tt) ->
  for_each items f = (flat_map (fun x => effects (f x)) items, Done tt).
Proof.
  induction items as [| x rest IH]; intros Hall; [reflexivity |].
  cbn [for_each flat_map].
  rewrite (surjective_run (f x)), (Hall x (or_introl eq_refl)), bind_done.
  rewrite IH by (intros y Hy; apply Hall; now right). reflexivity.
Qed.

(** A loop with an iteration that raises ends with an exception. *)
Lemma for_each_raises {A} (items : list A) (f : A -> Script unit) x e :
  In x items -> result (f x) = Raised e ->
  exists e', result (for_each items f) = Raised e'.
Proof.
  induction items as [| y rest IH]; intros Hin Hx; [easy |].
  cbn [for_each].
  destruct (f y) as [t [[] | ey]] eqn:Hy.
  - rewrite bind_done. cbn [result snd].
    destruct Hin as [-> | Hin].
    + rewrite Hy in Hx. discriminate.
    + destruct (IH Hin Hx) as [e' He']. exists e'. exact He'.
  - exists ey. reflexivity.
Qed.

(** Whatever a loop performs, one of its iterations performed. *)
Lemma for_each_effect_from {A} (items : list A) (f : A -> Script unit) ef :
  In ef (effects (for_each items f)) ->
  exists x, In x items /\ In ef (effects (f x)).
Proof.
  induction items as [| y rest IH]; cbn [for_each]; [easy |].
  destruct (f y) as [t [[] | ey]] eqn:Hy.
  - rewrite bind_done. cbn [effects fst]. rewrite in_app_iff.
    intros [Hin | Hin].
    + exists y. rewrite Hy. split; [now left | exact Hin].
    + destruct (IH Hin) as (x & Hx & Hef). exists x. split; [now right | easy].
  - cbn [bind effects fst]. intros Hin. exists y. rewrite Hy.
    split; [now left | exact Hin].
Qed.

(** A loop over a concatenation runs the second part after the first has
    completed. *)
Lemma for_each_app {A} (l1 l2 : list A) (f : A -> Script unit) :
  for_each (l1 ++ l2) f = (for_each l1 f ;; for_each l2 f).
Proof.
  induction l1 as [| x rest IH]; cbn [for_each app].
  - now rewrite bind_ret_l.
  - now rewrite IH, bind_assoc.
Qed.

(* ===================================================================== *)
(** ** Slicing *)
(* ===================================================================== *)

Lemma slice_last20 {A} (l : list A) :
  slice_from (-20) l = skipn (length l - 20) l.
Proof. unfold slice_from. cbn [Z.ltb Z.compare]. f_equal. lia. Qed.

Lemma slice_last20_split {A} (l : list A) :
  l = firstn (length l - 20) l ++ slice_from (-20) l.
Proof. rewrite slice_last20. symmetry. apply firstn_skipn. Qed.

Lemma slice_last20_length {A} (l : list A) :
  length (slice_from (-20) l) = Nat.min (length l) 20.
Proof. rewrite slice_last20, length_skipn. lia. Qed.

Lemma slice_last20_short {A} (l : list A) :
  (length l <= 20)%nat -> slice_from (-20) l = l.
Proof.
  intros H. rewrite slice_last20.
  replace (length l - 20)%nat with 0%nat by lia. reflexivity.
Qed.

Lemma slice_last20_app {A} (skipped kept : list A) :
  length kept = 20%nat -> slice_from (-20) (skipped ++ kept) = kept.
Proof.
  intros H. rewrite slice_last20, length_app, H.
  replace (length skipped + 20 - 20)%nat with (length skipped + 0)%nat by lia.
  rewrite skipn_app, Nat.add_0_r, skipn_all. cbn.
  now replace (length skipped - length skipped)%nat with 0%nat by lia.
Qed.

Lemma slice_last20_idem {A} (l : list A) :
  slice_from (-20) (slice_from (-20) l) = slice_from (-20) l.
Proof. apply slice_last20_short. rewrite slice_last20_length. lia. Qed.

(* ===================================================================== *)
(** ** Built-ins *)
(* ===================================================================== *)

Lemma pystr_eqb_eq (a b : pystr) : pystr_eqb a b = true <-> a = b.
Proof. unfold pystr_eqb. destruct (list_eq_dec N.eq_dec a b); easy. Qed.

Lemma pystr_eqb_refl (a : pystr) : pystr_eqb a a = true.
Proof. now apply pystr_eqb_eq. Qed.

Lemma py_in_spec (v : pyval) (candidates : list pystr) :
  py_in v candidates = true <-> exists s, v = PStr s /\ In s candidates.
Proof.
  destruct v; cbn [py_in];
    try (split; [discriminate | intros (s0 & Heq & _); discriminate]).
  rewrite existsb_exists. split.
  - intros (c & Hin & Heq). apply pystr_eqb_eq in Heq. subst c. now exists s.
  - intros (s0 & Heq & Hin). injection Heq as <-. exists s.
    split; [exact Hin | apply pystr_eqb_refl].
Qed.

Lemma getitem_dict_some items key x :
  dict_get key items = Some x -> getitem (PDict items) key = ret x.
Proof. intros H. cbn [getitem]. now rewrite H. Qed.

Lemma getitem_dict_none items key :
  dict_get key items = None ->
  getitem (PDict items) key = raise (KeyError key).
Proof. intros H. cbn [getitem]. now rewrite H. Qed.

(** Subscripting performs no effect. *)
Lemma getitem_pure v key : effects (getitem v key) = [].
Proof.
  destruct v; cbn [getitem]; try reflexivity.
  now destruct (dict_get key items).
Qed.

(** Subscripting completes on objects that have the key, and only there. *)
Lemma getitem_done v key x :
  getitem v key = ret x <->
  exists items, v = PDict items /\ dict_get key items = Some x.
Proof.
  split.
  - destruct v; cbn [getitem]; try discriminate.
    destruct (dict_get key items) eqn:Hg; [| discriminate].
    intros H. injection H as <-. now exists items.
  - intros (items & -> & Hg). now apply getitem_dict_some.
Qed.

Lemma getitem_cases v key :
  (exists x, getitem v key = ret x) \/ (exists e, getitem v key = raise e).
Proof.
  destruct v; cbn [getitem]; try (right; eexists; reflexivity).
  destruct (dict_get key items); [left | right]; eexists; reflexivity.
Qed.

(* ===================================================================== *)
(** ** JSON text is encodable *)
(* ===================================================================== *)

Section PyvalInduction.

Variable P : pyval -> Prop.
Hypothesis HNone : P PNone.
Hypothesis HBool : forall b, P (PBool b).
Hypothesis HInt : forall z, P (PInt z).
Hypothesis HFloat : forall r, P (PFloat r).
Hypothesis HStr : forall s, P (PStr s).
Hypothesis HList : forall items, Forall P items -> P (PList items).
Hypothesis HDict :
  forall items, Forall (fun kv => P (snd kv)) items -> P (PDict items).

(** Induction on a decoded value, with the hypothesis on every element of
    a list and every value of an object. *)
Fixpoint pyval_nested_ind (v : pyval) : P v :=
  match v with
  | PNone => HNone
  | PBool b => HBool b
  | PInt z => HInt z
  | PFloat r => HFloat r
  | PStr s => HStr s
  | PList items =>
      HList items
        ((fix all (l : list pyval) : Forall P l :=
            match l with
            | [] => Forall_nil _
            | x :: rest => Forall_cons x (pyval_nested_ind x) (all rest)
            end) items)
  | PDict items =>
      HDict items
        ((fix all (l : list (pystr * pyval))
            : Forall (fun kv => P (snd kv)) l :=
            match l with
            | [] => Forall_nil _
            | kv :: rest =>
                Forall_cons kv (pyval_nested_ind (snd kv)) (all rest)
            end) items)
  end.

End PyvalInduction.

Lemma encodable_str_mul s n :
  encodable s = true -> encodable (str_mul s n) = true.
Proof.
  intros H. unfold str_mul. induction n as [| n IH]; [reflexivity |].
  cbn [repeat concat]. now rewrite encodable_app, H, IH.
Qed.

Lemma encodable_newline_indent level :
  encodable (newline_indent level) = true.
Proof.
  unfold newline_indent. rewrite encodable_app, encodable_str_mul;
    [reflexivity | apply encodable_lit].
Qed.

Lemma encodable_join sep parts :
  encodable sep = true ->
  Forall (fun p => encodable p = true) parts ->
  encodable (join sep parts) = true.
Proof.
  intros Hsep Hparts. induction Hparts as [| p rest Hp _ IH]; [reflexivity |].
  destruct rest as [| q rest]; [exact Hp |].
  change (join sep (p :: q :: rest)) with (p ++ sep ++ join sep (q :: rest)).
  now rewrite !encodable_app, Hp, Hsep, IH.
Qed.

Lemma encodable_json_char c : encodable (json_char c) = true.
Proof.
  unfold json_char.
  repeat match goal with
         | |- context [if ?b then _ else _] => destruct b eqn:?
         end;
    try reflexivity;
    try (now rewrite !encodable_app, ?encodable_lit, ?encodable_hex_fixed).
  apply below_surrogates. constructor; [| constructor].
  match goal with
  | H : (_ && (c <=? 126)) = true |- _ =>
      apply andb_true_iff in H; destruct H as [_ H]; apply N.leb_le in H
  end.
  lia.
Qed.

Lemma encodable_json_str s : encodable (json_str s) = true.
Proof.
  unfold json_str. rewrite !encodable_app. cbn [encodable forallb].
  assert (H : encodable (flat_map json_char s) = true).
  { induction s as [| c rest IH]; [reflexivity |].
    cbn [flat_map]. now rewrite encodable_app, encodable_json_char, IH. }
  rewrite H. reflexivity.
Qed.

Lemma encodable_json_float (r : text) : encodable (json_float r) = true.
Proof.
  unfold json_float.
  repeat match goal with
         | |- context [if ?b then _ else _] => destruct b
         end;
    try apply encodable_lit. apply encodable_text.
Qed.

(** [json.dumps(_, indent=2)] with [ensure_ascii] gives text that
    standard output takes. *)
Lemma encodable_json_dumps v :
  forall level, encodable (json_dumps_at level v) = true.
Proof.
  induction v as [| b | z | r | s | items IH | items IH]
    using pyval_nested_ind; intros level.
  - apply encodable_lit.
  - destruct b; apply encodable_lit.
  - apply encodable_int_str.
  - apply encodable_json_float.
  - apply encodable_json_str.
  - destruct items as [| x rest]; [apply encodable_lit |].
    cbn [json_dumps_at].
    rewrite !encodable_app, !encodable_newline_indent, !encodable_lit.
    rewrite encodable_join; [reflexivity | |].
    + now rewrite encodable_app, encodable_newline_indent, encodable_lit.
    + apply Forall_map. revert IH. apply Forall_impl. intros v Hv. apply Hv.
  - destruct items as [| kv rest]; [apply encodable_lit |].
    cbn [json_dumps_at].
    rewrite !encodable_app, !encodable_newline_indent, !encodable_lit.
    rewrite encodable_join; [reflexivity | |].
    + now rewrite encodable_app, encodable_newline_indent, encodable_lit.
    + apply Forall_map. revert IH. apply Forall_impl. intros [k v] Hv.
      cbn [snd] in Hv.
      now rewrite !encodable_app, encodable_json_str, encodable_lit, Hv.
Qed.

(** The line of a shown event is encodable: its type is one of six
    literals and its data goes through the JSON encoder. *)
Lemma encodable_event_line {ucd : UnicodeData} ty data :
  py_in ty SHOWN_TYPES = true ->
  encodable (py_str ty ++ lit ": " ++ json_dumps_indent2 data) = true.
Proof.
  intros Hin. apply py_in_spec in Hin. destruct Hin as (s & -> & Hs).
  rewrite !encodable_app, encodable_lit.
  unfold json_dumps_indent2. rewrite encodable_json_dumps.
  cbn [py_str]. unfold SHOWN_TYPES in Hs. cbn [In] in Hs.
  assert (Henc : encodable s = true)
    by (intuition; subst s; apply encodable_lit).
  now rewrite Henc.
Qed.

(* ===================================================================== *)
(** ** The loop body *)
(* ===================================================================== *)

Section EventLoop.

Context {ucd : UnicodeData}.

Lemma show_event_fields event ty ts data :
  event_fields event = Some (ty, ts, data) ->
  show_event event =
    if py_in ty SHOWN_TYPES
    then ([EPrint (py_str ty ++ lit ": " ++ json_dumps_indent2 data)], Done tt)
    else ([], Done tt).
Proof.
  destruct event; cbn [event_fields]; try discriminate.
  destruct (dict_get (lit "type") items) as [ty' |] eqn:Hty; [| discriminate].
  destruct (dict_get (lit "timestamp") items) as [ts' |] eqn:Hts;
    [| discriminate].
  destruct (dict_get (lit "data") items) as [data' |] eqn:Hdata;
    [| discriminate].
  intros H. injection H as -> -> ->.
  unfold show_event.
  rewrite (getitem_dict_some _ _ _ Hty), bind_ret_l.
  destruct (py_in ty SHOWN_TYPES) eqn:Hin; [| reflexivity].
  rewrite (getitem_dict_some _ _ _ Hts), bind_ret_l, bind_ret_l.
  rewrite (getitem_dict_some _ _ _ Hdata), bind_ret_l.
  apply print_done, encodable_event_line, Hin.
Qed.

(** What one iteration can do: print one line and complete, complete in
    silence, or raise before printing anything. *)
Lemma show_event_outcomes event :
  (exists ty ts data,
      event_fields event = Some (ty, ts, data) /\
      py_in ty SHOWN_TYPES = true /\
      show_event event =
        ([EPrint (py_str ty ++ lit ": " ++ json_dumps_indent2 data)], Done tt))
  \/ show_event event = ([], Done tt)
  \/ exists e, show_event event = ([], Raised e).
Proof.
  destruct (event_fields event) as [[[ty ts] data] |] eqn:Hf.
  - rewrite (show_event_fields _ _ _ _ Hf).
    destruct (py_in ty SHOWN_TYPES) eqn:Hin; [left | right; left; reflexivity].
    exists ty, ts, data. repeat split. exact Hin.
  - right. unfold show_event.
    destruct (getitem_cases event (lit "type")) as [[ty Hty] | [e He]].
    + rewrite Hty, bind_ret_l.
      destruct (py_in ty SHOWN_TYPES); [| left; reflexivity]. right.
      apply getitem_done in Hty. destruct Hty as (items & -> & Hty).
      cbn [event_fields] in Hf. rewrite Hty in Hf.
      destruct (dict_get (lit "timestamp") items) as [ts |] eqn:Hts.
      * rewrite (getitem_dict_some _ _ _ Hts), bind_ret_l, bind_ret_l.
        destruct (dict_get (lit "data") items) as [data |] eqn:Hdata;
          [discriminate |].
        rewrite (getitem_dict_none _ _ Hdata). eexists. reflexivity.
      * rewrite (getitem_dict_none _ _ Hts). eexists. reflexivity.
    + rewrite He. right. eexists. reflexivity.
Qed.

(** An object without [type] raises at the test of line 16, whatever
    else it holds. *)
Lemma show_event_no_type items :
  dict_get (lit "type") items = None ->
  show_event (PDict items) = ([], Raised (KeyError (lit "type"))).
Proof.
  intros H. unfold show_event. now rewrite (getitem_dict_none _ _ H).
Qed.

Lemma show_event_no_timestamp items ty :
  dict_get (lit "type") items = Some ty ->
  py_in ty SHOWN_TYPES = true ->
  dict_get (lit "timestamp") items = None ->
  show_event (PDict items) = ([], Raised (KeyError (lit "timestamp"))).
Proof.
  intros Hty Hin Hts. unfold show_event.
  rewrite (getitem_dict_some _ _ _ Hty), bind_ret_l, Hin.
  now rewrite (getitem_dict_none _ _ Hts).
Qed.

Lemma show_event_no_data items ty ts :
  dict_get (lit "type") items = Some ty ->
  py_in ty SHOWN_TYPES = true ->
  dict_get (lit "timestamp") items = Some ts ->
  dict_get (lit "data") items = None ->
  show_event (PDict items) = ([], Raised (KeyError (lit "data"))).
Proof.
  intros Hty Hin Hts Hdata. unfold show_event.
  rewrite (getitem_dict_some _ _ _ Hty), bind_ret_l, Hin.
  rewrite (getitem_dict_some _ _ _ Hts), bind_ret_l, bind_ret_l.
  now rewrite (getitem_dict_none _ _ Hdata).
Qed.

(** The loop requests nothing. *)
Lemma show_event_no_request event : requested (effects (show_event event)) = [].
Proof.
  destruct (show_event_outcomes event)
    as [(ty & ts & data & _ & _ & ->) | [-> | [e ->]]]; reflexivity.
Qed.

Lemma event_line_sound event :
  result (show_event event) = Done tt ->
  event_fields event <> None ->
  effects (show_event event) = map EPrint (event_line event).
Proof.
  intros _ Hf. unfold event_line.
  destruct (event_fields event) as [[[ty ts] data] |] eqn:He; [| easy].
  rewrite (show_event_fields _ _ _ _ He).
  now destruct (py_in ty SHOWN_TYPES).
Qed.

End EventLoop.

Lemma in_printed (t : list effect) (line : pystr) :
  In line (printed t) <-> In (EPrint line) t.
Proof.
  unfold printed. rewrite in_flat_map. split.
  - intros ([u | s] & Hin & Hl); cbn in Hl; [easy |].
    destruct Hl as [-> | []]. exact Hin.
  - intros Hin. exists (EPrint line). split; [exact Hin | now left].
Qed.

Lemma in_requested (t : list effect) (url : pystr) :
  In url (requested t) <-> In (EGet url) t.
Proof.
  unfold requested. rewrite in_flat_map. split.
  - intros ([u | s] & Hin & Hl); cbn in Hl; [| easy].
    destruct Hl as [-> | []]. exact Hin.
  - intros Hin. exists (EGet url). split; [exact Hin | now left].
Qed.

(* ===================================================================== *)
(** ** The event reporter *)
(* ===================================================================== *)

Section EventReporter.

Context {ucd : UnicodeData}.

Lemma report_events_list (events : list pyval) :
  report_events (PList events) =
    (print (lit "Recent bot events:") ;;
     print (str_mul (lit "-") 50) ;;
     for_each (slice_from (-20) events) show_event).
Proof.
  unfold report_events. cbn [iter_slice_from]. now rewrite bind_ret_l.
Qed.

(** C1. Whatever the events list, the reporter keeps its trailing slice
    (the list itself below 20 events, its last 20 in the order received
    otherwise), and only then tests each kept event's type: the kept events
    are chosen by position alone, the run is the one of the kept events
    alone, and every event line printed comes from a kept event. *)
Theorem events_sliced_before_filtering (events : list pyval) :
  let kept := slice_from (-20) events in
  (exists skipped,
      events = skipped ++ kept /\
      length skipped = (length events - 20)%nat /\
      length kept = Nat.min (length events) 20)
  /\ report_events (PList events) =
       (print (lit "Recent bot events:") ;;
        print (str_mul (lit "-") 50) ;;
        for_each kept show_event)
  /\ report_events (PList events) = report_events (PList kept)
  /\ (forall line,
         In line (printed (effects (for_each kept show_event))) ->
         exists event,
           In event kept /\ effects (show_event event) = [EPrint line]).
Proof.
  intros kept. repeat split.
  - exists (firstn (length events - 20) events). repeat split.
    + apply slice_last20_split.
    + rewrite length_firstn. lia.
    + apply slice_last20_length.
  - apply report_events_list.
  - rewrite !report_events_list. unfold kept. now rewrite slice_last20_idem.
  - intros line Hin. apply in_printed in Hin.
    apply for_each_effect_from in Hin. destruct Hin as (event & Hk & Hin).
    exists event. split; [exact Hk |].
    destruct (show_event_outcomes event)
      as [(ty & ts & data & _ & _ & Hrun) | [Hrun | [e Hrun]]];
      rewrite Hrun in Hin |- *; cbn in Hin |- *.
    + destruct Hin as [Heq | []]. now rewrite Heq.
    + easy.
    + easy.
Qed.


(** On events of the data model the loop prints the owed lines, in
    order, and completes. *)
Lemma for_each_shaped (kept : list pyval) :
  (forall event, In event kept ->
     exists ty ts data, event_fields event = Some (ty, ts, data)) ->
  for_each kept show_event = (map EPrint (flat_map event_line kept), Done tt).
Proof.
  induction kept as [| event rest IH]; intros Hshape; [reflexivity |].
  destruct (Hshape event (or_introl eq_refl)) as (ty & ts & data & Hf).
  cbn [for_each flat_map]. rewrite map_app.
  rewrite IH by (intros e He; apply Hshape; now right).
  replace (event_line event)
    with (if py_in ty SHOWN_TYPES
          then [py_str ty ++ lit ": " ++ json_dumps_indent2 data] else [])
    by (unfold event_line; now rewrite Hf).
  rewrite (show_event_fields _ _ _ _ Hf).
  now destruct (py_in ty SHOWN_TYPES).
Qed.

(** C2, as the script has it.  Every event line printed is the type, a
    colon and the data as JSON indented by 2, of a kept event that has
    [type], [timestamp] and [data] and whose type is one of death,
    respawn_attempt, spawn, reconnect, chat and health.  An event that
    the loop reaches (no event before it raised) and that has the three
    fields gets that line when its type is one of the six, and completes
    in silence otherwise; an event whose type is none of the six prints
    nothing.  On a slice whose events all have the three
    fields the loop prints exactly the lines owed, in order. *)
Theorem shown_types_decide_printing (events : list pyval) :
  let kept := slice_from (-20) events in
  let shown ty :=
    exists s, ty = PStr s /\
      In s [lit "death"; lit "respawn_attempt"; lit "spawn";
            lit "reconnect"; lit "chat"; lit "health"] in
  (forall line,
      In line (printed (effects (for_each kept show_event))) ->
      exists event ty ts data,
        In event kept /\ event_fields event = Some (ty, ts, data) /\
        shown ty /\
        line = py_str ty ++ lit ": " ++ json_dumps_indent2 data)
  /\ (forall before event after ty ts data,
        kept = before ++ event :: after ->
        result (for_each before show_event) = Done tt ->
        event_fields event = Some (ty, ts, data) ->
        (shown ty ->
           show_event event =
             ([EPrint (py_str ty ++ lit ": " ++ json_dumps_indent2 data)],
              Done tt)
           /\ exists rest,
                effects (for_each kept show_event) =
                  effects (for_each before show_event)
                  ++ EPrint (py_str ty ++ lit ": " ++ json_dumps_indent2 data)
                  :: rest)
        /\ (~ shown ty -> show_event event = ([], Done tt)))
  /\ (forall event,
        In event kept ->
        (forall items ty,
            event = PDict items -> dict_get (lit "type") items = Some ty ->
            ~ shown ty) ->
        effects (show_event event) = [])
  /\ ((forall event, In event kept ->
         exists ty ts data, event_fields event = Some (ty, ts, data)) ->
      report_events (PList events) =
        (EPrint (lit "Recent bot events:") :: EPrint (str_mul (lit "-") 50)
           :: map EPrint (flat_map event_line kept),
         Done tt)).
Proof.
  intros kept shown.
  assert (Hspec : forall ty, py_in ty SHOWN_TYPES = true <-> shown ty)
    by (intros ty; apply py_in_spec).
  split; [| split; [| split]].
  - intros line Hin. apply in_printed, for_each_effect_from in Hin.
    destruct Hin as (event & Hk & Hin). exists event.
    destruct (show_event_outcomes event)
      as [(ty & ts & data & Hf & Hshown & Hrun) | [Hrun | [e Hrun]]];
      rewrite Hrun in Hin; cbn in Hin; try easy.
    destruct Hin as [Heq | []]. injection Heq as <-.
    exists ty, ts, data. repeat split; try assumption. now apply Hspec.
  - intros before event after ty ts data Hkept Hbefore Hf.
    pose proof (show_event_fields _ _ _ _ Hf) as Hrun.
    split.
    + intros Hshown. apply Hspec in Hshown. rewrite Hshown in Hrun.
      split; [exact Hrun |].
      rewrite Hkept, for_each_app, (surjective_run (for_each before _)).
      rewrite Hbefore, bind_done. cbn [for_each effects fst].
      rewrite Hrun, bind_done. cbn [effects fst app].
      eexists. reflexivity.
    + intros Hother. destruct (py_in ty SHOWN_TYPES) eqn:Hin;
        [| exact Hrun].
      elim Hother. now apply Hspec.
  - intros event _ Hother.
    destruct (show_event_outcomes event)
      as [(ty & ts & data & Hf & Hshown & _) | [-> | [e ->]]];
      try reflexivity.
    destruct event as [| | | | | | items]; try discriminate.
    cbn [event_fields] in Hf.
    destruct (dict_get (lit "type") items) as [ty' |] eqn:Hty;
      [| discriminate].
    destruct (dict_get (lit "timestamp") items); [| discriminate].
    destruct (dict_get (lit "data") items); [| discriminate].
    injection Hf as -> _ _.
    elim (Hother items ty eq_refl Hty). now apply Hspec.
  - intros Hshape. subst kept.
    now rewrite report_events_list, !bind_print, (for_each_shaped _ Hshape)
      by reflexivity.
Qed.

End EventReporter.

(* ===================================================================== *)
(** ** The state reporter *)
(* ===================================================================== *)

Section StateReporter.

Context {ucd : UnicodeData}.

Lemma state_body_run (srv : service) :
  state_body srv =
    match srv STATE_URL with
    | ConnectionFailure msg => ([EGet STATE_URL], Raised (RequestException msg))
    | Response (NotJson msg) => ([EGet STATE_URL], Raised (JSONDecodeError msg))
    | Response (Json state) =>
        (EGet STATE_URL :: effects (show_state state),
         result (show_state state))
    end.
Proof.
  unfold state_body, requests_get. fold STATE_URL.
  destruct (srv STATE_URL) as [msg | [msg | state]]; try reflexivity.
  rewrite bind_done. cbn [response_json]. now rewrite bind_ret_l.
Qed.

Lemma printed_map_print (lines : list pystr) :
  printed (map EPrint lines) = lines.
Proof.
  induction lines as [| l ls IH]; [reflexivity |]. cbn. now f_equal.
Qed.

Lemma requested_map_print (lines : list pystr) :
  requested (map EPrint lines) = [].
Proof. induction lines as [| l ls IH]; [reflexivity | exact IH]. Qed.

(** A line around a value is encodable exactly when the value's text is. *)
Lemma encodable_around (before after : String.string) (s : pystr) :
  encodable (lit before ++ s ++ lit after) = encodable s.
Proof. rewrite !encodable_app, !encodable_lit. cbn. apply andb_true_r. Qed.

Lemma encodable_after (before : String.string) (s : pystr) :
  encodable (lit before ++ s) = encodable s.
Proof. now rewrite encodable_app, encodable_lit. Qed.

(** The exceptions of a failing subscript have an ASCII message, for
    the keys of the state. *)
Lemma getitem_raise_encodable state key e :
  In key STATE_FIELDS ->
  getitem state key = raise e ->
  encodable (exn_str e) = true
  /\ ((exists items, state = PDict items /\ e = KeyError key
                     /\ dict_get key items = None)
      \/ (exists msg, e = TypeError msg /\ forall items, state <> PDict items)).
Proof.
  intros Hin Hraise. unfold raise in Hraise.
  destruct state; cbn [getitem] in Hraise;
    try (injection Hraise as <-;
         split; [cbn [exn_str type_name];
                 now rewrite ?encodable_app, ?encodable_lit
                | right; eexists; split; [reflexivity | discriminate]]).
  destruct (dict_get key items) eqn:Hget; [discriminate |].
  injection Hraise as <-. split.
  - unfold STATE_FIELDS in Hin. cbn [In] in Hin.
    destruct Hin as [<- | [<- | [<- | [<- | []]]]]; reflexivity.
  - left. now exists items.
Qed.

(** One field of the state: the subscript, then the print of its line. *)
Ltac state_field key Hget Henc :=
  match goal with
  | |- context [getitem (PDict ?items) key] =>
      destruct (dict_get key items) as [?v |] eqn:Hget;
      [ rewrite (getitem_dict_some _ _ _ Hget), bind_ret_l;
        match goal with
        | |- context [bind (print ?line) _] =>
            destruct (encodable line) eqn:Henc;
            [ rewrite (bind_print line _ Henc)
            | rewrite (print_raised line Henc), bind_raised ]
        end
      | rewrite (getitem_dict_none _ _ Hget) ]
  end.

(** Closes a branch of [show_state] that raised after [lines]. *)
Ltac state_raised lines :=
  right; exists lines; eexists;
  (split; [reflexivity |]);
  (split; [cbn; lia |]);
  (split; [repeat constructor; cbn; discriminate |]);
  split;
  [ first [ reflexivity | apply encodable_encode_error_message ]
  | first [ left; eexists; split; [reflexivity |];
            split; [cbn; tauto | first [reflexivity | assumption]]
          | right; eexists; reflexivity ] ].

(** What the prints of the [try] body come to.  Either the four fields
    are there and their lines are encodable: the five lines are printed.
    Or the body raises after the lines of the fields before the failure,
    none of which starts with a line break: a [KeyError] for the first
    missing field, or a [UnicodeEncodeError] for the first line standard
    output cannot encode; the message of either is ASCII. *)
Lemma show_state_dict items :
  (exists health food position gameMode,
      dict_get (lit "health") items = Some health /\
      dict_get (lit "food") items = Some food /\
      dict_get (lit "position") items = Some position /\
      dict_get (lit "gameMode") items = Some gameMode /\
      encodable (py_str health) = true /\
      encodable (py_str food) = true /\
      encodable (py_str position) = true /\
      encodable (py_str gameMode) = true /\
      show_state (PDict items) =
        ([EPrint (lit "Health: " ++ py_str health ++ lit "/20");
          EPrint (lit "Food: " ++ py_str food ++ lit "/20");
          EPrint (lit "Position: " ++ py_str position);
          EPrint (lit "Game Mode: " ++ py_str gameMode);
          EPrint ALIVE_MESSAGE], Done tt))
  \/ (exists lines e,
        show_state (PDict items) = (map EPrint lines, Raised e) /\
        (length lines <= 3)%nat /\
        Forall (fun line => hd 0 line <> NEWLINE) lines /\
        encodable (exn_str e) = true /\
        ((exists missing,
             e = KeyError missing /\ In missing STATE_FIELDS /\
             dict_get missing items = None)
         \/ exists msg, e = UnicodeEncodeError msg)).
Proof.
  unfold show_state.
  state_field (lit "health") Hh Eh;
    [| state_raised (@nil pystr) | state_raised (@nil pystr)].
  state_field (lit "food") Hf Ef;
    [| state_raised [lit "Health: " ++ py_str v ++ lit "/20"]
     | state_raised [lit "Health: " ++ py_str v ++ lit "/20"]].
  state_field (lit "position") Hp Ep;
    [| state_raised [lit "Health: " ++ py_str v ++ lit "/20";
                     lit "Food: " ++ py_str v0 ++ lit "/20"]
     | state_raised [lit "Health: " ++ py_str v ++ lit "/20";
                     lit "Food: " ++ py_str v0 ++ lit "/20"]].
  state_field (lit "gameMode") Hg Eg;
    [| state_raised [lit "Health: " ++ py_str v ++ lit "/20";
                     lit "Food: " ++ py_str v0 ++ lit "/20";
                     lit "Position: " ++ py_str v1]
     | state_raised [lit "Health: " ++ py_str v ++ lit "/20";
                     lit "Food: " ++ py_str v0 ++ lit "/20";
                     lit "Position: " ++ py_str v1]].
  left. exists v, v0, v1, v2.
  rewrite encodable_around in Eh, Ef. rewrite encodable_after in Ep, Eg.
  repeat (split; [first [reflexivity | assumption] |]).
  rewrite print_done by reflexivity. reflexivity.
Qed.

Lemma show_state_present items health food position gameMode :
  dict_get (lit "health") items = Some health ->
  dict_get (lit "food") items = Some food ->
  dict_get (lit "position") items = Some position ->
  dict_get (lit "gameMode") items = Some gameMode ->
  encodable (py_str health) = true ->
  encodable (py_str food) = true ->
  encodable (py_str position) = true ->
  encodable (py_str gameMode) = true ->
  show_state (PDict items) =
    ([EPrint (lit "Health: " ++ py_str health ++ lit "/20");
      EPrint (lit "Food: " ++ py_str food ++ lit "/20");
      EPrint (lit "Position: " ++ py_str position);
      EPrint (lit "Game Mode: " ++ py_str gameMode);
      EPrint ALIVE_MESSAGE], Done tt).
Proof.
  intros Hh Hf Hp Hg Eh Ef Ep Eg. unfold show_state.
  rewrite (getitem_dict_some _ _ _ Hh), (getitem_dict_some _ _ _ Hf),
    (getitem_dict_some _ _ _ Hp), (getitem_dict_some _ _ _ Hg).
  rewrite !bind_ret_l.
  rewrite !bind_print
    by (rewrite ?encodable_around, ?encodable_after; assumption).
  now rewrite print_done by reflexivity.
Qed.

(** The same for any decoded state: a value that is no object fails at
    the first subscript with a [TypeError]. *)
Lemma show_state_outcomes state :
  (exists items health food position gameMode,
      state = PDict items /\
      dict_get (lit "health") items = Some health /\
      dict_get (lit "food") items = Some food /\
      dict_get (lit "position") items = Some position /\
      dict_get (lit "gameMode") items = Some gameMode /\
      encodable (py_str health) = true /\
      encodable (py_str food) = true /\
      encodable (py_str position) = true /\
      encodable (py_str gameMode) = true)
  \/ (exists lines e,
        show_state state = (map EPrint lines, Raised e) /\
        (length lines <= 3)%nat /\
        Forall (fun line => hd 0 line <> NEWLINE) lines /\
        encodable (exn_str e) = true).
Proof.
  destruct (getitem_cases state (lit "health")) as [[h Hh] | [e He]].
  - apply getitem_done in Hh. destruct Hh as (items & -> & _).
    destruct (show_state_dict items)
      as [(h' & f & p & g & Hh & Hf & Hp & Hg & Eh & Ef & Ep & Eg & _)
         | (lines & e & Hrun & Hlen & Hlines & Henc & _)].
    + left. now exists items, h', f, p, g.
    + right. now exists lines, e.
  - right. exists [], e. unfold show_state. rewrite He.
    split; [reflexivity |]. split; [cbn; lia |]. split; [constructor |].
    apply (getitem_raise_encodable state (lit "health") e);
      [now left | exact He].
Qed.

(** The first missing field raises its [KeyError] after the lines of the
    fields before it, unless one of those lines cannot be encoded, which
    raises first. *)
Lemma show_state_missing items key :
  In key STATE_FIELDS -> dict_get key items = None ->
  exists t e,
    show_state (PDict items) = (t, Raised e) /\
    ((exists missing,
         e = KeyError missing /\ In missing STATE_FIELDS /\
         dict_get missing items = None)
     \/ exists msg, e = UnicodeEncodeError msg).
Proof.
  intros Hin Hnone.
  destruct (show_state_dict items)
    as [(h & f & p & g & Hh & Hf & Hp & Hg & _)
       | (lines & e & Hrun & _ & _ & _ & Hkind)].
  - exfalso. unfold STATE_FIELDS in Hin. cbn [In] in Hin.
    intuition; subst; congruence.
  - now exists (map EPrint lines), e.
Qed.

Lemma show_state_quiet state : requested (effects (show_state state)) = [].
Proof.
  destruct (show_state_outcomes state)
    as [(items & h & f & p & g & -> & Hh & Hf & Hp & Hg & Eh & Ef & Ep & Eg)
       | (lines & e & -> & _)].
  - now rewrite (show_state_present _ _ _ _ _ Hh Hf Hp Hg Eh Ef Ep Eg).
  - apply requested_map_print.
Qed.

(** Whatever the body of the [try] raises has a message that standard
    output can encode. *)
Lemma state_body_raises_encodable (srv : service) t e :
  state_body srv = (t, Raised e) -> encodable (exn_str e) = true.
Proof.
  rewrite state_body_run.
  destruct (srv STATE_URL) as [msg | [msg | state]].
  - intros H. injection H as _ <-. apply encodable_text.
  - intros H. injection H as _ <-. apply encodable_text.
  - destruct (show_state_outcomes state)
      as [(items & h & f & p & g & -> & Hh & Hf & Hp & Hg & Eh & Ef & Ep & Eg)
         | (lines & e' & Hrun & _ & _ & Henc)].
    + now rewrite (show_state_present _ _ _ _ _ Hh Hf Hp Hg Eh Ef Ep Eg).
    + rewrite Hrun. intros H. injection H as _ <-. exact Henc.
Qed.

(** The reporter never raises: what the body raises, the handler turns
    into two lines. *)
Lemma report_state_run (srv : service) :
  report_state srv =
    (EPrint ([NEWLINE] ++ str_mul (lit "-") 50)
       :: EPrint (lit "Current bot state:")
       :: effects (state_body srv)
       ++ match result (state_body srv) with
          | Done _ => []
          | Raised e =>
              [EPrint (lit "Error getting state: " ++ exn_str e);
               EPrint (lit "Bot may be disconnected")]
          end,
     Done tt).
Proof.
  unfold report_state. rewrite !bind_print by reflexivity.
  destruct (state_body srv) as [t [[] | e]] eqn:Hbody;
    cbn [try_except effects result fst snd].
  - now rewrite app_nil_r.
  - unfold state_handler.
    rewrite bind_print
      by (rewrite encodable_after;
          apply (state_body_raises_encodable srv t e Hbody)).
    now rewrite print_done by reflexivity.
Qed.

Lemma report_state_requested (srv : service) :
  requested (effects (report_state srv)) = [STATE_URL].
Proof.
  rewrite report_state_run. cbn [effects fst requested flat_map app].
  fold (requested (effects (state_body srv) ++
     match result (state_body srv) with
     | Done _ => []
     | Raised e => [EPrint (lit "Error getting state: " ++ exn_str e);
                    EPrint (lit "Bot may be disconnected")]
     end)).
  rewrite requested_app, state_body_run.
  destruct (srv STATE_URL) as [msg | [msg | state]]; try reflexivity.
  cbn [effects result fst snd]. change (requested (EGet STATE_URL :: ?t))
    with (STATE_URL :: requested t).
  cbn [requested flat_map app]. fold (requested (effects (show_state state))).
  rewrite show_state_quiet. now destruct (result (show_state state)).
Qed.

End StateReporter.

(* ===================================================================== *)
(** ** The script as a whole *)
(* ===================================================================== *)

Lemma quiet_prints_only (t : list effect) :
  requested t = [] -> t = map EPrint (printed t).
Proof.
  induction t as [| [url | text] t IH]; cbn; intros H;
    [reflexivity | discriminate |].
  f_equal. now apply IH.
Qed.

Lemma for_each_quiet {A} (items : list A) (f : A -> Script unit) :
  (forall x, requested (effects (f x)) = []) ->
  requested (effects (for_each items f)) = [].
Proof.
  intros Hf. induction items as [| x rest IH]; [reflexivity |].
  cbn [for_each]. rewrite (surjective_run (f x)).
  destruct (result (f x)) as [[] | e].
  - rewrite bind_done. cbn [effects fst]. now rewrite requested_app, Hf, IH.
  - apply Hf.
Qed.

Lemma urls_differ : pystr_eqb EVENTS_URL STATE_URL = false.
Proof. reflexivity. Qed.

Section Script.

Context {ucd : UnicodeData}.

Lemma fetch_events_run (srv : service) :
  fetch_events srv =
    ([EGet EVENTS_URL],
     match srv EVENTS_URL with
     | ConnectionFailure msg => Raised (RequestException msg)
     | Response (NotJson msg) => Raised (JSONDecodeError msg)
     | Response (Json decoded) => result (getitem decoded (lit "events"))
     end).
Proof.
  unfold fetch_events, requests_get. fold EVENTS_URL.
  destruct (srv EVENTS_URL) as [msg | [msg | decoded]]; try reflexivity.
  rewrite bind_done. cbn [response_json]. rewrite bind_ret_l.
  cbn [effects result fst snd]. now rewrite getitem_pure.
Qed.

Lemma report_events_quiet (events : pyval) :
  requested (effects (report_events events)) = [].
Proof.
  unfold report_events. rewrite !bind_print by reflexivity.
  cbn [effects fst requested flat_map app].
  destruct events; try reflexivity; cbn [iter_slice_from];
    rewrite bind_ret_l; apply for_each_quiet, show_event_no_request.
Qed.

Lemma events_phase_run (srv : service) :
  events_phase srv =
    match result (fetch_events srv) with
    | Done events =>
        (EGet EVENTS_URL :: effects (report_events events),
         result (report_events events))
    | Raised e => ([EGet EVENTS_URL], Raised e)
    end.
Proof.
  unfold events_phase. rewrite (surjective_run (fetch_events srv)).
  replace (effects (fetch_events srv)) with [EGet EVENTS_URL]
    by now rewrite fetch_events_run.
  cbn [result snd]. destruct (result (fetch_events srv)); [| reflexivity].
  now rewrite bind_done.
Qed.

Lemma verify_respawn_phases (srv : service) :
  verify_respawn srv = (events_phase srv ;; report_state srv).
Proof. unfold verify_respawn, events_phase. now rewrite !bind_assoc. Qed.

(** The state reporter runs after a completed events phase, and not
    otherwise. *)
Lemma verify_respawn_run (srv : service) :
  verify_respawn srv =
    match result (events_phase srv) with
    | Done _ =>
        (effects (events_phase srv) ++ effects (report_state srv), Done tt)
    | Raised e => (effects (events_phase srv), Raised e)
    end.
Proof.
  rewrite verify_respawn_phases, (surjective_run (events_phase srv)).
  cbn [effects result fst snd].
  destruct (result (events_phase srv)) as [[] | e]; [| reflexivity].
  now rewrite bind_done, report_state_run.
Qed.

Lemma events_phase_requested (srv : service) :
  requested (effects (events_phase srv)) = [EVENTS_URL].
Proof.
  rewrite events_phase_run.
  destruct (result (fetch_events srv)) as [events | e]; [| reflexivity].
  cbn [effects fst requested flat_map app].
  fold (requested (effects (report_events events))).
  now rewrite report_events_quiet.
Qed.

(** An exception of the events phase is the outcome of the run, which
    then has requested the events and nothing else. *)
Lemma verify_respawn_aborted (srv : service) e :
  result (events_phase srv) = Raised e ->
  verify_respawn srv = (effects (events_phase srv), Raised e)
  /\ requested (effects (verify_respawn srv)) = [EVENTS_URL].
Proof.
  intros He. rewrite verify_respawn_run, He. split; [reflexivity |].
  apply events_phase_requested.
Qed.

Lemma report_state_ext (srv srv' : service) :
  srv STATE_URL = srv' STATE_URL -> report_state srv = report_state srv'.
Proof.
  intros H. rewrite !report_state_run, !state_body_run. now rewrite H.
Qed.

End Script.

(* ===================================================================== *)
(** ** Properties of the state reporter and of the run *)
(* ===================================================================== *)

Section Claims.

Context {ucd : UnicodeData}.


(** C4. The state reporter never raises.  Whatever exception the body of
    the [try] raises (a failed request, a body that is not JSON, a missing
    field), after what the body had printed come the line
    [Error getting state: ] with the exception's message and the line
    [Bot may be disconnected], and the script ends normally.  With a field
    missing the body raises: the [KeyError] of a missing field, unless the
    line of a field before it could not be encoded, which raises
    [UnicodeEncodeError] first. *)
Theorem state_failure_caught (srv : service) :
  result (report_state srv) = Done tt
  /\ (forall t, events_phase srv = (t, Done tt) ->
        result (verify_respawn srv) = Done tt)
  /\ (forall t e, state_body srv = (t, Raised e) ->
        report_state srv =
          (EPrint ([NEWLINE] ++ str_mul (lit "-") 50)
             :: EPrint (lit "Current bot state:")
             :: t ++ [EPrint (lit "Error getting state: " ++ exn_str e);
                      EPrint (lit "Bot may be disconnected")],
           Done tt))
  /\ (forall msg, srv STATE_URL = ConnectionFailure msg ->
        state_body srv = ([EGet STATE_URL], Raised (RequestException msg)))
  /\ (forall msg, srv STATE_URL = Response (NotJson msg) ->
        state_body srv = ([EGet STATE_URL], Raised (JSONDecodeError msg)))
  /\ (forall items key,
        srv STATE_URL = Response (Json (PDict items)) ->
        In key STATE_FIELDS -> dict_get key items = None ->
        exists t e,
          state_body srv = (EGet STATE_URL :: t, Raised e)
          /\ ((exists missing,
                  e = KeyError missing /\ In missing STATE_FIELDS /\
                  dict_get missing items = None)
              \/ exists msg, e = UnicodeEncodeError msg)).
Proof.
  repeat split.
  - now rewrite report_state_run.
  - intros t Hev. rewrite verify_respawn_run, Hev. reflexivity.
  - intros t e Hbody. now rewrite report_state_run, Hbody.
  - intros msg Hsrv. now rewrite state_body_run, Hsrv.
  - intros msg Hsrv. now rewrite state_body_run, Hsrv.
  - intros items key Hsrv Hin Hnone.
    destruct (show_state_missing items key Hin Hnone)
      as (t & e & Hrun & Hkind).
    exists t, e. rewrite state_body_run, Hsrv, Hrun. now split.
Qed.

(** C5. An exception raised while the events are fetched and decoded (a
    failed request, a body that is not JSON, a decoded value without
    [events]) is the outcome of the script: nothing handles it, the only
    effect of the run is the request of the events, and the state is never
    requested.  The same holds for an exception raised anywhere before the
    state reporter. *)
Theorem events_failure_aborts (srv : service) :
  (forall e, result (fetch_events srv) = Raised e ->
     verify_respawn srv = ([EGet EVENTS_URL], Raised e))
  /\ (forall msg, srv EVENTS_URL = ConnectionFailure msg ->
        verify_respawn srv =
          ([EGet EVENTS_URL], Raised (RequestException msg)))
  /\ (forall msg, srv EVENTS_URL = Response (NotJson msg) ->
        verify_respawn srv =
          ([EGet EVENTS_URL], Raised (JSONDecodeError msg)))
  /\ (forall decoded e, srv EVENTS_URL = Response (Json decoded) ->
        getitem decoded (lit "events") = raise e ->
        verify_respawn srv = ([EGet EVENTS_URL], Raised e))
  /\ (forall e, result (events_phase srv) = Raised e ->
        result (verify_respawn srv) = Raised e
        /\ requested (effects (verify_respawn srv)) = [EVENTS_URL]
        /\ ~ In (EGet STATE_URL) (effects (verify_respawn srv))).
Proof.
  assert (Hfail : forall e, result (fetch_events srv) = Raised e ->
            verify_respawn srv = ([EGet EVENTS_URL], Raised e)).
  { intros e He. rewrite verify_respawn_run, events_phase_run, He.
    reflexivity. }
  split; [exact Hfail |]. split; [| split; [| split]].
  - intros msg Hsrv. apply Hfail. now rewrite fetch_events_run, Hsrv.
  - intros msg Hsrv. apply Hfail. now rewrite fetch_events_run, Hsrv.
  - intros decoded e Hsrv He. apply Hfail.
    now rewrite fetch_events_run, Hsrv, He.
  - intros e He. destruct (verify_respawn_aborted srv e He) as [Hrun Hreq].
    split; [now rewrite Hrun |]. split; [exact Hreq |].
    intros Hin. apply in_requested in Hin. rewrite Hreq in Hin.
    destruct Hin as [Heq | []].
    pose proof urls_differ as Hd. rewrite Heq in Hd.
    now rewrite pystr_eqb_refl in Hd.
Qed.

(** C10. Nothing is printed before the events are fetched and decoded:
    when that raises, standard output stays empty; and whenever the run
    prints anything, the events were decoded and the first two lines out
    are the header and the separator. *)
Theorem no_output_before_events_decoded (srv : service) :
  (forall e, result (fetch_events srv) = Raised e ->
     stdout (verify_respawn srv) = [])
  /\ (forall msg, srv EVENTS_URL = ConnectionFailure msg ->
        stdout (verify_respawn srv) = [])
  /\ (forall msg, srv EVENTS_URL = Response (NotJson msg) ->
        stdout (verify_respawn srv) = [])
  /\ (forall line, In line (printed (effects (verify_respawn srv))) ->
        exists events rest,
          fetch_events srv = ([EGet EVENTS_URL], Done events)
          /\ printed (effects (verify_respawn srv)) =
               lit "Recent bot events:" :: str_mul (lit "-") 50 :: rest).
Proof.
  assert (Hfail : forall e, result (fetch_events srv) = Raised e ->
            stdout (verify_respawn srv) = []).
  { intros e He. now rewrite verify_respawn_run, events_phase_run, He. }
  split; [exact Hfail |]. split; [| split].
  - intros msg Hsrv. eapply Hfail. now rewrite fetch_events_run, Hsrv.
  - intros msg Hsrv. eapply Hfail. now rewrite fetch_events_run, Hsrv.
  - intros line Hin.
    destruct (result (fetch_events srv)) as [events | e] eqn:Hf.
    + assert (Hhead : exists rest,
                printed (effects (events_phase srv)) =
                  lit "Recent bot events:" :: str_mul (lit "-") 50 :: rest).
      { rewrite events_phase_run, Hf. unfold report_events.
        rewrite !bind_print by reflexivity. eexists. reflexivity. }
      destruct Hhead as [rest Hhead].
      exists events. rewrite verify_respawn_run.
      destruct (result (events_phase srv)) as [[] | e];
        cbn [effects fst]; rewrite ?printed_app, Hhead.
      * eexists. split; [| reflexivity].
        now rewrite (surjective_run (fetch_events srv)), Hf, fetch_events_run.
      * eexists. split; [| reflexivity].
        now rewrite (surjective_run (fetch_events srv)), Hf, fetch_events_run.
    + exfalso. rewrite verify_respawn_run, events_phase_run, Hf in Hin.
      exact Hin.
Qed.

(** C7, as the script has it.  The run starts with the request of the
    events; what follows of the events phase is printing.  When that phase
    raises the run ends there, with that one request.  When it completes,
    the state header, the one request of the state and the state lines
    follow, in this order, and the run ends normally: two requests, none
    of them repeated, every event line before every state line. *)
Theorem requests_in_sequence (srv : service) :
  exists event_lines,
    effects (events_phase srv) = EGet EVENTS_URL :: map EPrint event_lines
    /\ match result (events_phase srv) with
       | Raised e =>
           verify_respawn srv =
             (EGet EVENTS_URL :: map EPrint event_lines, Raised e)
       | Done _ =>
           exists state_lines,
             verify_respawn srv =
               (EGet EVENTS_URL :: map EPrint event_lines
                  ++ [EPrint ([NEWLINE] ++ str_mul (lit "-") 50);
                      EPrint (lit "Current bot state:");
                      EGet STATE_URL]
                  ++ map EPrint state_lines,
                Done tt)
       end
    /\ requested (effects (verify_respawn srv)) =
         match result (events_phase srv) with
         | Raised _ => [EVENTS_URL]
         | Done _ => [EVENTS_URL; STATE_URL]
         end.
Proof.
  assert (Hreq : requested (effects (verify_respawn srv)) =
                   match result (events_phase srv) with
                   | Raised _ => [EVENTS_URL]
                   | Done _ => [EVENTS_URL; STATE_URL]
                   end).
  { rewrite verify_respawn_run.
    destruct (result (events_phase srv)) as [[] | e]; cbn [effects fst].
    - now rewrite requested_app, events_phase_requested,
        report_state_requested.
    - apply events_phase_requested. }
  assert (Hev : exists event_lines,
            effects (events_phase srv) =
              EGet EVENTS_URL :: map EPrint event_lines).
  { rewrite events_phase_run.
    destruct (result (fetch_events srv)) as [events | e].
    - exists (printed (effects (report_events events))).
      cbn [effects fst]. f_equal.
      apply quiet_prints_only, report_events_quiet.
    - now exists []. }
  destruct Hev as [event_lines Hev]. exists event_lines.
  split; [exact Hev |]. split; [| exact Hreq]. clear Hreq.
  rewrite verify_respawn_run, Hev.
  destruct (result (events_phase srv)) as [[] | e]; [| reflexivity].
  assert (Hst : exists body_lines,
            effects (state_body srv) = EGet STATE_URL :: map EPrint body_lines).
  { rewrite state_body_run.
    destruct (srv STATE_URL) as [msg | [msg | state]];
      try (now exists []).
    exists (printed (effects (show_state state))).
    cbn [effects fst]. f_equal.
    apply quiet_prints_only, show_state_quiet. }
  destruct Hst as [body_lines Hst].
  rewrite report_state_run, Hst. cbn [effects fst].
  destruct (result (state_body srv)) as [[] | e].
  - exists body_lines. now rewrite app_nil_r.
  - exists (body_lines ++ [lit "Error getting state: " ++ exn_str e;
                           lit "Bot may be disconnected"]).
    now rewrite map_app.
Qed.

(** C8. When the kept slice holds an object without [type], or an object
    of a shown type without [timestamp] or without [data], the script ends
    with an unhandled exception and never requests the state.  The object
    itself raises the [KeyError] of a field it lacks before printing
    anything; one without [type] raises at the test of its type, although
    no line was due for it. *)
Theorem malformed_event_aborts (srv : service) events items :
  result (fetch_events srv) = Done (PList events) ->
  In (PDict items) (slice_from (-20) events) ->
  (dict_get (lit "type") items = None
   \/ exists ty,
        dict_get (lit "type") items = Some ty /\
        py_in ty SHOWN_TYPES = true /\
        (dict_get (lit "timestamp") items = None
         \/ dict_get (lit "data") items = None)) ->
  (exists e, result (verify_respawn srv) = Raised e)
  /\ requested (effects (verify_respawn srv)) = [EVENTS_URL]
  /\ (exists key,
        In key [lit "type"; lit "timestamp"; lit "data"] /\
        dict_get key items = None /\
        show_event (PDict items) = ([], Raised (KeyError key)))
  /\ (dict_get (lit "type") items = None ->
        show_event (PDict items) = ([], Raised (KeyError (lit "type")))
        /\ event_line (PDict items) = []).
Proof.
  intros Hfetch Hin Hbad.
  assert (Hkey : exists key,
            In key [lit "type"; lit "timestamp"; lit "data"] /\
            dict_get key items = None /\
            show_event (PDict items) = ([], Raised (KeyError key))).
  { destruct Hbad as [Hty | (ty & Hty & Hshown & Hrest)].
    - exists (lit "type"). split; [now left |]. split; [exact Hty |].
      now apply show_event_no_type.
    - destruct (dict_get (lit "timestamp") items) as [ts |] eqn:Hts.
      + destruct Hrest as [Hnone | Hdata]; [discriminate |].
        exists (lit "data"). split; [now right; right; left |].
        split; [exact Hdata |]. now apply (show_event_no_data items ty ts).
      + exists (lit "timestamp"). split; [now right; left |].
        split; [exact Hts |]. now apply (show_event_no_timestamp items ty). }
  destruct Hkey as (key & Hk & Hnone & Hrun).
  assert (Hloop : exists e,
            result (for_each (slice_from (-20) events) show_event) = Raised e).
  { apply (for_each_raises _ _ (PDict items) (KeyError key) Hin).
    now rewrite Hrun. }
  destruct Hloop as [e He].
  assert (Hphase : result (events_phase srv) = Raised e).
  { rewrite events_phase_run, Hfetch, report_events_list, !bind_print
      by reflexivity.
    exact He. }
  destruct (verify_respawn_aborted srv e Hphase) as [Hv Hreq].
  split; [exists e; now rewrite Hv |]. split; [exact Hreq |].
  split; [now exists key |].
  intros Hty. split; [now apply show_event_no_type |].
  unfold event_line. cbn [event_fields]. now rewrite Hty.
Qed.

Lemma dict_get_same items items' :
  Forall2 same_item_but_timestamp items items' ->
  forall key,
    (key <> lit "timestamp" -> dict_get key items = dict_get key items')
    /\ (dict_get key items = None <-> dict_get key items' = None).
Proof.
  induction 1 as [| [k v] [k' v'] rest rest' [Hk Hv] _ IH]; intros key.
  - now split.
  - cbn [fst snd] in Hk, Hv. subst k'. cbn [dict_get].
    destruct (pystr_eqb k key) eqn:Heq.
    + apply pystr_eqb_eq in Heq. subst k. split; [| easy].
      intros Hne. now rewrite (Hv Hne).
    + apply IH.
Qed.

(** The loop body does the same on two events that differ in the value
    of [timestamp] alone. *)
Lemma show_event_same e e' :
  same_but_timestamp e e' -> show_event e = show_event e'.
Proof.
  intros [-> | (items & items' & -> & -> & Hsame)]; [reflexivity |].
  pose proof (dict_get_same _ _ Hsame) as Hget.
  assert (Hty : dict_get (lit "type") items = dict_get (lit "type") items')
    by now apply Hget.
  assert (Hdata : dict_get (lit "data") items = dict_get (lit "data") items')
    by now apply Hget.
  destruct (Hget (lit "timestamp")) as [_ Hts].
  unfold show_event. cbn [getitem]. rewrite <- Hty, <- Hdata.
  destruct (dict_get (lit "type") items) as [ty |]; [| reflexivity].
  rewrite !bind_ret_l. destruct (py_in ty SHOWN_TYPES); [| reflexivity].
  destruct (dict_get (lit "timestamp") items) as [ts |],
           (dict_get (lit "timestamp") items') as [ts' |];
    try reflexivity.
  - destruct Hts as [_ Hts]. now specialize (Hts eq_refl).
  - destruct Hts as [Hts _]. now specialize (Hts eq_refl).
Qed.

Lemma for_each_same (l l' : list pyval) :
  Forall2 same_but_timestamp l l' ->
  for_each l show_event = for_each l' show_event.
Proof.
  induction 1 as [| e e' l l' He _ IH]; [reflexivity |].
  cbn [for_each]. now rewrite (show_event_same _ _ He), IH.
Qed.

Lemma Forall2_skipn {A B} (R : A -> B -> Prop) n l l' :
  Forall2 R l l' -> Forall2 R (skipn n l) (skipn n l').
Proof.
  intros H. revert n. induction H; intros [| n]; cbn; auto.
Qed.

(** C9. Two runs whose decoded events differ only in the values of the
    events' [timestamp] fields, against the same state response, have the
    same effects and the same outcome; standard output is the same text. *)
Theorem output_independent_of_timestamps (srv srv' : service) events events' :
  result (fetch_events srv) = Done (PList events) ->
  result (fetch_events srv') = Done (PList events') ->
  Forall2 same_but_timestamp events events' ->
  srv STATE_URL = srv' STATE_URL ->
  verify_respawn srv = verify_respawn srv'
  /\ stdout (verify_respawn srv) = stdout (verify_respawn srv').
Proof.
  intros Hf Hf' Hsame Hstate.
  assert (Heq : verify_respawn srv = verify_respawn srv').
  { rewrite !verify_respawn_run, !events_phase_run, Hf, Hf'.
    rewrite (report_state_ext _ _ Hstate), !report_events_list.
    rewrite !slice_last20, (Forall2_length Hsame).
    now rewrite (for_each_same _ _ (Forall2_skipn _ _ _ _ Hsame)). }
  split; [exact Heq | now rewrite Heq].
Qed.

(** C6. On the scenario of the specification the run prints the header,
    one event line (for the chat event, with its data over three lines),
    nothing for the event of unknown type, then the state header, the four
    state lines and the success message, and ends normally. *)
Theorem scenario_output :
  verify_respawn scenario_service =
    ([EGet EVENTS_URL;
      EPrint (lit "Recent bot events:");
      EPrint (lit "--------------------------------------------------");
      EPrint (lit "chat: {" ++ [NEWLINE]
              ++ lit "  " ++ [QUOTE] ++ lit "msg" ++ [QUOTE] ++ lit ": "
              ++ [QUOTE] ++ lit "hi" ++ [QUOTE] ++ [NEWLINE]
              ++ lit "}");
      EPrint ([NEWLINE]
              ++ lit "--------------------------------------------------");
      EPrint (lit "Current bot state:");
      EGet STATE_URL;
      EPrint (lit "Health: 20/20");
      EPrint (lit "Food: 18/20");
      EPrint (lit "Position: {'x': 0, 'y': 64, 'z': 0}");
      EPrint (lit "Game Mode: survival");
      EPrint ALIVE_MESSAGE],
     Done tt)
  /\ printed (effects (events_phase scenario_service)) =
       [lit "Recent bot events:";
        str_mul (lit "-") 50;
        lit "chat: " ++ json_dumps_indent2 (PDict [(lit "msg", PStr (lit "hi"))])].
Proof. split; vm_compute; reflexivity. Qed.

End Claims.

(* ===================================================================== *)
(** ** The built-ins on small inputs *)
(* ===================================================================== *)

Example slice_of_25 : slice_from (-20) (seq 0 25) = seq 5 20.
Proof. reflexivity. Qed.

Example slice_of_3 : slice_from (-20) (seq 0 3) = seq 0 3.
Proof. reflexivity. Qed.

Example int_str_negative : int_str (-64) = lit "-64".
Proof. reflexivity. Qed.

Example json_str_escapes :
  json_str (lit "a" ++ [NEWLINE; 233; 0x1F600]) =
    [QUOTE] ++ lit "a\n\u00e9\ud83d\ude00" ++ [QUOTE].
Proof. reflexivity. Qed.

Example json_dumps_nested :
  json_dumps_indent2
    (PDict [(lit "pos", PList [PInt 1; PFloat (Text (lit "2.5") eq_refl)]);
            (lit "ok", PBool true); (lit "none", PList [])]) =
    lit "{" ++ [NEWLINE]
    ++ lit "  " ++ json_str (lit "pos") ++ lit ": [" ++ [NEWLINE]
    ++ lit "    1," ++ [NEWLINE]
    ++ lit "    2.5" ++ [NEWLINE]
    ++ lit "  ]," ++ [NEWLINE]
    ++ lit "  " ++ json_str (lit "ok") ++ lit ": true," ++ [NEWLINE]
    ++ lit "  " ++ json_str (lit "none") ++ lit ": []" ++ [NEWLINE]
    ++ lit "}".
Proof. reflexivity. Qed.

Example repr_prefers_single_quotes :
  py_repr (ucd := latin1_table)
    (PList [PStr (lit "hi"); PStr (lit "it's"); PNone; PBool false]) =
    lit "['hi', " ++ [QUOTE] ++ lit "it's" ++ [QUOTE] ++ lit ", None, False]".
Proof. reflexivity. Qed.

Example print_refuses_surrogates :
  print (lit "Game Mode: " ++ [0xD83D]) =
    raise (UnicodeEncodeError
             (lit "'utf-8' codec can't encode character '\ud83d' in position 11: surrogates not allowed"))
  /\ encode_error_message (lit "ab" ++ [0xD83D; 0xDC00] ++ lit "c") =
       lit "'utf-8' codec can't encode characters in position 2-3: surrogates not allowed"
  /\ print (lit "caf" ++ [233; 0x1F600]) =
       ([EPrint (lit "caf" ++ [233; 0x1F600])], Done tt).
Proof. repeat split. Qed.

Example getitem_on_a_list :
  getitem (PList []) (lit "type") =
    raise (TypeError (lit "list indices must be integers or slices, not str")).
Proof. reflexivity. Qed.

(* ===================================================================== *)
(** ** Sample runs *)
(* ===================================================================== *)

(** A chat event in front of 20 events of unknown type is outside the
    slice: only the header and the separator are printed. *)
Lemma events_sliced_before_filtering_sample :
  report_events (ucd := latin1_table) (PList long_events) =
    ([EPrint (lit "Recent bot events:"); EPrint (str_mul (lit "-") 50)],
     Done tt).
Proof.
  destruct (events_sliced_before_filtering (ucd := latin1_table) long_events)
    as (_ & _ & Hkept & _).
  rewrite Hkept. reflexivity.
Defined.

Lemma shown_types_decide_printing_sample :
  report_events (ucd := latin1_table) (PList scenario_events) =
    ([EPrint (lit "Recent bot events:");
      EPrint (str_mul (lit "-") 50);
      EPrint (lit "chat: "
              ++ json_dumps_indent2 (PDict [(lit "msg", PStr (lit "hi"))]))],
     Done tt).
Proof.
  assert (Hshape : forall event,
            In event (slice_from (-20) scenario_events) ->
            exists ty ts data, event_fields event = Some (ty, ts, data)).
  { intros event [<- | [<- | []]]; repeat eexists; reflexivity. }
  exact (proj2 (proj2 (proj2 (shown_types_decide_printing
                                (ucd := latin1_table) scenario_events)))
           Hshape).
Defined.

(** A chat event without [timestamp] is in the slice and its type is a
    shown one, yet no line is printed for it: the loop raises there. *)
Lemma shown_event_without_timestamp_not_printed :
  In unstamped_event (slice_from (-20) [unstamped_event])
  /\ dict_get (lit "type") unstamped_items = Some (PStr (lit "chat"))
  /\ In (lit "chat") SHOWN_TYPES
  /\ report_events (ucd := latin1_table) (PList [unstamped_event]) =
       ([EPrint (lit "Recent bot events:"); EPrint (str_mul (lit "-") 50)],
        Raised (KeyError (lit "timestamp"))).
Proof.
  split; [now left |]. split; [reflexivity |].
  split; [do 4 right; now left | reflexivity].
Qed.



Lemma state_failure_caught_sample :
  report_state (ucd := latin1_table)
    (serve (events_reply scenario_events) refused) =
    ([EPrint ([NEWLINE] ++ str_mul (lit "-") 50);
      EPrint (lit "Current bot state:");
      EGet STATE_URL;
      EPrint (lit "Error getting state: Connection refused");
      EPrint (lit "Bot may be disconnected")], Done tt).
Proof.
  destruct (state_failure_caught (ucd := latin1_table)
              (serve (events_reply scenario_events) refused))
    as (_ & _ & Hcaught & Hrefused & _).
  exact (Hcaught _ _ (Hrefused (Text (lit "Connection refused") eq_refl)
                        eq_refl)).
Defined.

Lemma events_failure_aborts_sample :
  verify_respawn (ucd := latin1_table)
    (serve refused (Response (Json scenario_state))) =
    ([EGet EVENTS_URL], Raised (RequestException (lit "Connection refused"))).
Proof.
  exact (proj1 (proj2 (events_failure_aborts (ucd := latin1_table)
                         (serve refused (Response (Json scenario_state)))))
           (Text (lit "Connection refused") eq_refl) eq_refl).
Defined.

Lemma no_output_before_events_decoded_sample :
  stdout (verify_respawn (ucd := latin1_table)
            (serve (Response (NotJson (Text (lit "Expecting value") eq_refl)))
                   (Response (Json scenario_state)))) = [].
Proof.
  exact (proj1 (proj2 (proj2 (no_output_before_events_decoded
                                (ucd := latin1_table)
                                (serve (Response (NotJson (Text (lit "Expecting value") eq_refl)))
                                       (Response (Json scenario_state))))))
           (Text (lit "Expecting value") eq_refl) eq_refl).
Defined.

(** The run against a service that refuses the events request makes one
    request, not two. *)
Lemma one_request_when_events_refused :
  requested (effects (verify_respawn (ucd := latin1_table)
                        (serve refused (Response (Json scenario_state)))))
    = [EVENTS_URL]
  /\ length (requested (effects (verify_respawn (ucd := latin1_table)
                                   (serve refused
                                          (Response (Json scenario_state))))))
     <> 2%nat.
Proof. split; [reflexivity | discriminate]. Qed.

Lemma malformed_event_aborts_sample :
  In untyped_event (slice_from (-20) (chat_event :: untyped_event :: nil))
  /\ result (verify_respawn (ucd := latin1_table)
               (serve (events_reply [chat_event; untyped_event])
                      (Response (Json scenario_state))))
     = Raised (KeyError (lit "type")).
Proof.
  assert (Hin : In untyped_event
                  (slice_from (-20) (chat_event :: untyped_event :: nil)))
    by (right; left; reflexivity).
  split; [exact Hin |].
  destruct (malformed_event_aborts (ucd := latin1_table)
              (serve (events_reply [chat_event; untyped_event])
                     (Response (Json scenario_state)))
              [chat_event; untyped_event]
              [(lit "timestamp", PInt 3); (lit "data", PDict [])]
              eq_refl Hin (or_introl eq_refl))
    as ((e & He) & _).
  rewrite He. vm_compute in He. now injection He as <-.
Defined.

Lemma output_independent_of_timestamps_sample :
  Forall2 same_but_timestamp scenario_events restamped_events
  /\ stdout (verify_respawn (ucd := latin1_table) scenario_service) =
     stdout (verify_respawn (ucd := latin1_table)
               (serve (events_reply restamped_events)
                      (Response (Json scenario_state)))).
Proof.
  assert (Hsame : Forall2 same_but_timestamp scenario_events restamped_events).
  { assert (Hitem : forall k v, k <> lit "timestamp" ->
                        same_item_but_timestamp (k, v) (k, v))
      by (intros k v Hne; now split).
    assert (Hstamp : forall v v',
              same_item_but_timestamp (lit "timestamp", v)
                                      (lit "timestamp", v'))
      by (intros v v'; split; [reflexivity | intros Hne; now elim Hne]).
    apply Forall2_cons; [| apply Forall2_cons; [| apply Forall2_nil]];
      right; do 2 eexists; (split; [reflexivity |]); (split; [reflexivity |]);
      (apply Forall2_cons;
       [apply Hitem; discriminate
       | apply Forall2_cons;
         [apply Hstamp
         | apply Forall2_cons;
           [apply Hitem; discriminate | apply Forall2_nil]]]). }
  split; [exact Hsame |].
  exact (proj2 (output_independent_of_timestamps (ucd := latin1_table)
                  scenario_service
                  (serve (events_reply restamped_events)
                         (Response (Json scenario_state)))
                  scenario_events restamped_events
                  eq_refl eq_refl Hsame eq_refl)).
Defined.

(* ===================================================================== *)
(** ** Edge behaviour of the event reporter *)
(* ===================================================================== *)

Section EventEdges.

Context {ucd : UnicodeData}.

Lemma bind_silent {B} (k : unit -> Script B) : bind ([], Done tt) k = k tt.
Proof. exact (bind_ret_l tt k). Qed.

Lemma show_event_raised_silent event e :
  result (show_event event) = Raised e -> show_event event = ([], Raised e).
Proof.
  destruct (show_event_outcomes event)
    as [(ty & ts & data & _ & _ & ->) | [-> | [e' ->]]];
    cbn [result snd]; intros H; try discriminate.
  now injection H as ->.
Qed.

Lemma show_event_unshown items ty :
  dict_get (lit "type") items = Some ty ->
  py_in ty SHOWN_TYPES = false ->
  show_event (PDict items) = ([], Done tt).
Proof.
  intros Hty Hin. unfold show_event.
  now rewrite (getitem_dict_some _ _ _ Hty), bind_ret_l, Hin.
Qed.


(** X1. When the decoded [events] is neither a list nor a string (null, a
    boolean, a number, an object), the header and the separator are
    already printed when the slice of line 15 raises: the run ends there
    with that exception and the state is never requested. *)
Theorem unsliceable_events_abort_after_header (srv : service) events :
  result (fetch_events srv) = Done events ->
  sliceable events = false ->
  exists e,
    verify_respawn srv =
      ([EGet EVENTS_URL;
        EPrint (lit "Recent bot events:");
        EPrint (str_mul (lit "-") 50)],
       Raised e).
Proof.
  intros Hf Hs.
  assert (Hre : exists e,
            report_events events =
              ([EPrint (lit "Recent bot events:");
                EPrint (str_mul (lit "-") 50)], Raised e)).
  { unfold report_events. rewrite !bind_print by reflexivity.
    destruct events; try discriminate; eexists; reflexivity. }
  destruct Hre as [e Hre]. exists e.
  now rewrite verify_respawn_run, events_phase_run, Hf, Hre.
Qed.

(** X2. When the decoded [events] is a string, the loop visits its last
    20 characters: on a non-empty string the first of them raises a
    [TypeError] at the test of its type, after the header; on the empty
    string the loop does nothing and the run goes on to the state, as for
    an empty list. *)
Theorem string_events_visited_by_character (srv : service) s :
  result (fetch_events srv) = Done (PStr s) ->
  (s = [] ->
     verify_respawn srv =
       (EGet EVENTS_URL
          :: EPrint (lit "Recent bot events:")
          :: EPrint (str_mul (lit "-") 50)
          :: effects (report_state srv),
        Done tt))
  /\ (s <> [] ->
        exists msg,
          verify_respawn srv =
            ([EGet EVENTS_URL;
              EPrint (lit "Recent bot events:");
              EPrint (str_mul (lit "-") 50)],
             Raised (TypeError msg))).
Proof.
  intros Hf. split.
  - intros ->. now rewrite verify_respawn_run, events_phase_run, Hf.
  - intros Hne.
    destruct (slice_from (-20) s) as [| c rest] eqn:Hslice.
    + pose proof (slice_last20_length s) as Hlen. rewrite Hslice in Hlen.
      destruct s; [now elim Hne | cbn in Hlen; lia].
    + eexists.
      rewrite verify_respawn_run, events_phase_run, Hf.
      unfold report_events. rewrite !bind_print by reflexivity.
      cbn [iter_slice_from]. rewrite bind_ret_l, Hslice.
      reflexivity.
Qed.

(** X3. Events whose [type] is present and is none of the six shown
    strings (another string, or no string at all) are passed in silence;
    their [timestamp] and [data] are never read, so they need not be
    there.  A slice of such events, the empty one included, leaves the
    header and the separator as the whole event section, and the loop
    completes. *)
Theorem unshown_events_pass_in_silence (events : list pyval) :
  (forall event, In event (slice_from (-20) events) ->
     exists items ty,
       event = PDict items /\
       dict_get (lit "type") items = Some ty /\
       py_in ty SHOWN_TYPES = false) ->
  report_events (PList events) =
    ([EPrint (lit "Recent bot events:"); EPrint (str_mul (lit "-") 50)],
     Done tt).
Proof.
  intros Hall. rewrite report_events_list, !bind_print by reflexivity.
  assert (Hloop : for_each (slice_from (-20) events) show_event = ret tt).
  { induction (slice_from (-20) events) as [| event rest IH];
      [reflexivity |].
    destruct (Hall event (or_introl eq_refl)) as (items & ty & -> & Hty & Hin).
    cbn [for_each]. rewrite (show_event_unshown _ _ Hty Hin), bind_silent.
    apply IH. intros e He. apply Hall. now right. }
  now rewrite Hloop.
Qed.

(** X4. The loop stops at the first event that raises: the lines owed to
    the events before it are printed, in order, the exception is the
    outcome of the event reporter, and the events after it are not looked
    at, whatever they are. *)
Theorem loop_stops_at_first_failure (events before after : list pyval)
        bad e :
  slice_from (-20) events = before ++ bad :: after ->
  (forall event, In event before ->
     exists ty ts data, event_fields event = Some (ty, ts, data)) ->
  result (show_event bad) = Raised e ->
  report_events (PList events) =
    (EPrint (lit "Recent bot events:") :: EPrint (str_mul (lit "-") 50)
       :: map EPrint (flat_map event_line before),
     Raised e).
Proof.
  intros Hkept Hshape Hbad.
  rewrite report_events_list, !bind_print, Hkept, for_each_app by reflexivity.
  rewrite (for_each_shaped _ Hshape), bind_done. cbn [for_each].
  rewrite (show_event_raised_silent _ _ Hbad). cbn [bind effects result fst snd].
  now rewrite app_nil_r.
Qed.


(** X10. The loop body reads three things of an event object: its
    [type], its [data], and whether it has a [timestamp].  Objects that
    agree on these are treated alike, whatever else they hold and in
    whatever order. *)
Theorem event_read_through_three_fields items items' :
  dict_get (lit "type") items = dict_get (lit "type") items' ->
  dict_get (lit "data") items = dict_get (lit "data") items' ->
  (dict_get (lit "timestamp") items = None <->
   dict_get (lit "timestamp") items' = None) ->
  show_event (PDict items) = show_event (PDict items').
Proof.
  intros Hty Hdata Hts. unfold show_event. cbn [getitem].
  rewrite <- Hty, <- Hdata.
  destruct (dict_get (lit "type") items) as [ty |]; [| reflexivity].
  rewrite !bind_ret_l. destruct (py_in ty SHOWN_TYPES); [| reflexivity].
  destruct (dict_get (lit "timestamp") items) as [ts |],
           (dict_get (lit "timestamp") items') as [ts' |];
    try reflexivity.
  - destruct Hts as [_ Hts]. now specialize (Hts eq_refl).
  - destruct Hts as [Hts _]. now specialize (Hts eq_refl).
Qed.

End EventEdges.

(* ===================================================================== *)
(** ** Edge behaviour of the state reporter and of the run *)
(* ===================================================================== *)

Section StateEdges.

Context {ucd : UnicodeData}.

(** X6. The state fields are printed as they are read: when a field is
    missing from the state object and the lines of the fields before it
    can be encoded, those lines are already out, then come the error
    line, which shows the missing key between single quotes, and the
    disconnect note; the fields after it are not printed and the success
    message is not either. *)
Theorem state_lines_until_missing_field (srv : service) items :
  srv STATE_URL = Response (Json (PDict items)) ->
  let opening :=
    [EPrint ([NEWLINE] ++ str_mul (lit "-") 50);
     EPrint (lit "Current bot state:");
     EGet STATE_URL] in
  let closing key :=
    [EPrint (lit "Error getting state: '" ++ key ++ lit "'");
     EPrint (lit "Bot may be disconnected")] in
  (dict_get (lit "health") items = None ->
     report_state srv = (opening ++ closing (lit "health"), Done tt))
  /\ (forall health,
        dict_get (lit "health") items = Some health ->
        encodable (py_str health) = true ->
        dict_get (lit "food") items = None ->
        report_state srv =
          (opening
             ++ EPrint (lit "Health: " ++ py_str health ++ lit "/20")
             :: closing (lit "food"),
           Done tt))
  /\ (forall health food,
        dict_get (lit "health") items = Some health ->
        encodable (py_str health) = true ->
        dict_get (lit "food") items = Some food ->
        encodable (py_str food) = true ->
        dict_get (lit "position") items = None ->
        report_state srv =
          (opening
             ++ EPrint (lit "Health: " ++ py_str health ++ lit "/20")
             :: EPrint (lit "Food: " ++ py_str food ++ lit "/20")
             :: closing (lit "position"),
           Done tt))
  /\ (forall health food position,
        dict_get (lit "health") items = Some health ->
        encodable (py_str health) = true ->
        dict_get (lit "food") items = Some food ->
        encodable (py_str food) = true ->
        dict_get (lit "position") items = Some position ->
        encodable (py_str position) = true ->
        dict_get (lit "gameMode") items = None ->
        report_state srv =
          (opening
             ++ EPrint (lit "Health: " ++ py_str health ++ lit "/20")
             :: EPrint (lit "Food: " ++ py_str food ++ lit "/20")
             :: EPrint (lit "Position: " ++ py_str position)
             :: closing (lit "gameMode"),
           Done tt)).
Proof.
  intros Hsrv opening closing.
  assert (Hrun : report_state srv =
            (opening ++ effects (show_state (PDict items))
               ++ match result (show_state (PDict items)) with
                  | Done _ => []
                  | Raised e =>
                      [EPrint (lit "Error getting state: " ++ exn_str e);
                       EPrint (lit "Bot may be disconnected")]
                  end, Done tt))
    by now rewrite report_state_run, state_body_run, Hsrv.
  rewrite Hrun. unfold show_state. split; [| split; [| split]].
  - intros Hh. now rewrite (getitem_dict_none _ _ Hh).
  - intros h Hh Eh Hf.
    rewrite (getitem_dict_some _ _ _ Hh), bind_ret_l.
    rewrite bind_print by now rewrite encodable_around.
    now rewrite (getitem_dict_none _ _ Hf).
  - intros h f Hh Eh Hf Ef Hp.
    rewrite (getitem_dict_some _ _ _ Hh), bind_ret_l.
    rewrite bind_print by now rewrite encodable_around.
    rewrite (getitem_dict_some _ _ _ Hf), bind_ret_l.
    rewrite bind_print by now rewrite encodable_around.
    now rewrite (getitem_dict_none _ _ Hp).
  - intros h f p Hh Eh Hf Ef Hp Ep Hg.
    rewrite (getitem_dict_some _ _ _ Hh), bind_ret_l.
    rewrite bind_print by now rewrite encodable_around.
    rewrite (getitem_dict_some _ _ _ Hf), bind_ret_l.
    rewrite bind_print by now rewrite encodable_around.
    rewrite (getitem_dict_some _ _ _ Hp), bind_ret_l.
    rewrite bind_print by now rewrite encodable_after.
    now rewrite (getitem_dict_none _ _ Hg).
Qed.


(** X8. A state response that is JSON but no object (null, a boolean, a
    number, a string, a list) fails at the first subscript with a
    [TypeError]; the handler reports its message, and no state line is
    printed. *)
Theorem state_not_an_object_reported (srv : service) state :
  srv STATE_URL = Response (Json state) ->
  (forall items, state <> PDict items) ->
  exists msg,
    getitem state (lit "health") = raise (TypeError msg) /\
    report_state srv =
      ([EPrint ([NEWLINE] ++ str_mul (lit "-") 50);
        EPrint (lit "Current bot state:");
        EGet STATE_URL;
        EPrint (lit "Error getting state: " ++ msg);
        EPrint (lit "Bot may be disconnected")], Done tt).
Proof.
  intros Hsrv Hnot.
  destruct state; try (now elim (Hnot items));
    eexists; (split; [reflexivity |]);
    now rewrite report_state_run, state_body_run, Hsrv.
Qed.

(** X9. The state reporter reads four fields of the state object and
    nothing else: two objects that agree on health, food, position and
    gameMode give the same report, whatever other fields they hold and in
    whatever order. *)
Theorem state_read_through_four_fields (srv srv' : service) items items' :
  srv STATE_URL = Response (Json (PDict items)) ->
  srv' STATE_URL = Response (Json (PDict items')) ->
  (forall field, In field STATE_FIELDS ->
     dict_get field items = dict_get field items') ->
  report_state srv = report_state srv'.
Proof.
  intros Hsrv Hsrv' Hsame.
  rewrite !report_state_run, !state_body_run, Hsrv, Hsrv'.
  assert (Hshow : show_state (PDict items) = show_state (PDict items')).
  { unfold show_state. cbn [getitem].
    rewrite <- (Hsame (lit "health")) by (cbn; tauto).
    rewrite <- (Hsame (lit "food")) by (cbn; tauto).
    rewrite <- (Hsame (lit "position")) by (cbn; tauto).
    rewrite <- (Hsame (lit "gameMode")) by (cbn; tauto).
    reflexivity. }
  now rewrite Hshow.
Qed.

(** X11. Whether the script ends normally is decided before the state is
    looked at: the outcome of the run is the outcome of the events phase,
    so it is the same against any two services that answer the events
    request alike, whatever they answer to the state request. *)
Theorem outcome_decided_by_events_phase (srv : service) :
  result (verify_respawn srv) = result (events_phase srv)
  /\ forall srv',
       srv' EVENTS_URL = srv EVENTS_URL ->
       result (verify_respawn srv') = result (verify_respawn srv).
Proof.
  assert (Hres : forall s, result (verify_respawn s) = result (events_phase s)).
  { intros s. rewrite verify_respawn_run.
    now destruct (result (events_phase s)) as [[] | e]. }
  split; [apply Hres |].
  intros srv' Heq. rewrite !Hres, !events_phase_run, !fetch_events_run, Heq.
  reflexivity.
Qed.


(** X12. A run that ends normally ends on a verdict: the last thing it
    does is print the success message or the disconnect note. *)
Theorem normal_run_ends_with_verdict (srv : service) :
  result (verify_respawn srv) = Done tt ->
  exists before verdict,
    effects (verify_respawn srv) = before ++ [EPrint verdict] /\
    (verdict = ALIVE_MESSAGE \/ verdict = lit "Bot may be disconnected").
Proof.
  intros Hdone.
  assert (Hst : exists before verdict,
            effects (report_state srv) = before ++ [EPrint verdict] /\
            (verdict = ALIVE_MESSAGE \/
             verdict = lit "Bot may be disconnected")).
  { rewrite report_state_run.
    destruct (state_body srv) as [t [[] | e]] eqn:Hbody;
      cbn [effects result fst snd].
    - rewrite state_body_run in Hbody.
      destruct (srv STATE_URL) as [msg | [msg | state]]; try discriminate.
      destruct (show_state_outcomes state)
        as [(items & h & f & p & g & -> & Hh & Hf & Hp & Hg
             & Eh & Ef & Ep & Eg)
           | (lines & e & Hrun & _)].
      + rewrite (show_state_present _ _ _ _ _ Hh Hf Hp Hg Eh Ef Ep Eg)
          in Hbody.
        injection Hbody as <-.
        eexists [_; _; _; _; _; _; _], _. split; [reflexivity | now left].
      + rewrite Hrun in Hbody. discriminate.
    - exists (EPrint ([NEWLINE] ++ str_mul (lit "-") 50)
                :: EPrint (lit "Current bot state:")
                :: t ++ [EPrint (lit "Error getting state: " ++ exn_str e)]),
        (lit "Bot may be disconnected").
      split; [| now right]. cbn [app]. now rewrite <- app_assoc. }
  destruct Hst as (before & verdict & Heq & Hverdict).
  rewrite verify_respawn_run in Hdone |- *.
  destruct (result (events_phase srv)) as [[] | e]; [| discriminate].
  exists (effects (events_phase srv) ++ before), verdict.
  split; [| exact Hverdict]. cbn [effects fst].
  now rewrite Heq, app_assoc.
Qed.

(** X13. Of the object that answers the events request only the entry
    [events] is read: two services whose event objects have the same
    [events] and that answer the state request alike give the same run,
    whatever else the event objects hold. *)
Theorem run_reads_events_entry_only (srv srv' : service) items items' :
  srv EVENTS_URL = Response (Json (PDict items)) ->
  srv' EVENTS_URL = Response (Json (PDict items')) ->
  dict_get (lit "events") items = dict_get (lit "events") items' ->
  srv STATE_URL = srv' STATE_URL ->
  verify_respawn srv = verify_respawn srv'.
Proof.
  intros Hsrv Hsrv' Hev Hst.
  rewrite !verify_respawn_run, !events_phase_run, !fetch_events_run.
  rewrite Hsrv, Hsrv'. cbn [getitem]. rewrite <- Hev.
  now rewrite (report_state_ext _ _ Hst).
Qed.

End StateEdges.

(* ===================================================================== *)
(** ** Sample runs of the edge cases *)
(* ===================================================================== *)

Lemma unsliceable_events_abort_after_header_sample :
  exists e,
    verify_respawn (ucd := latin1_table)
      (serve (Response (Json (PDict [(lit "events", PInt 7)])))
             (Response (Json scenario_state))) =
      ([EGet EVENTS_URL;
        EPrint (lit "Recent bot events:");
        EPrint (str_mul (lit "-") 50)],
       Raised e).
Proof.
  exact (unsliceable_events_abort_after_header (ucd := latin1_table)
           (serve (Response (Json (PDict [(lit "events", PInt 7)])))
                  (Response (Json scenario_state)))
           (PInt 7) eq_refl eq_refl).
Defined.

Lemma string_events_visited_by_character_sample :
  exists msg,
    verify_respawn (ucd := latin1_table)
      (serve (Response (Json (PDict [(lit "events", PStr (lit "none"))])))
             (Response (Json scenario_state))) =
      ([EGet EVENTS_URL;
        EPrint (lit "Recent bot events:");
        EPrint (str_mul (lit "-") 50)],
       Raised (TypeError msg)).
Proof.
  apply (proj2 (string_events_visited_by_character (ucd := latin1_table)
                  (serve (Response
                            (Json (PDict [(lit "events", PStr (lit "none"))])))
                         (Response (Json scenario_state)))
                  (lit "none") eq_refl)).
  discriminate.
Defined.

Lemma unshown_events_pass_in_silence_sample :
  report_events (ucd := latin1_table)
    (PList [numbered_event; bare_unknown_event]) =
    ([EPrint (lit "Recent bot events:"); EPrint (str_mul (lit "-") 50)],
     Done tt).
Proof.
  apply (unshown_events_pass_in_silence (ucd := latin1_table)
           [numbered_event; bare_unknown_event]).
  intros event [<- | [<- | []]]; do 2 eexists;
    (split; [reflexivity |]); split; reflexivity.
Defined.

Lemma loop_stops_at_first_failure_sample :
  report_events (ucd := latin1_table)
    (PList [chat_event; untyped_event; chat_event]) =
    ([EPrint (lit "Recent bot events:");
      EPrint (str_mul (lit "-") 50);
      EPrint (lit "chat: "
              ++ json_dumps_indent2 (PDict [(lit "msg", PStr (lit "hi"))]))],
     Raised (KeyError (lit "type"))).
Proof.
  apply (loop_stops_at_first_failure (ucd := latin1_table)
           [chat_event; untyped_event; chat_event]
           [chat_event] [chat_event] untyped_event
           (KeyError (lit "type")) eq_refl).
  - intros event [<- | []]. repeat eexists; reflexivity.
  - reflexivity.
Defined.

Lemma event_read_through_three_fields_sample :
  show_event (ucd := latin1_table) chat_event =
  show_event (ucd := latin1_table)
    (PDict [(lit "id", PInt 41);
            (lit "data", PDict [(lit "msg", PStr (lit "hi"))]);
            (lit "timestamp", PNone);
            (lit "type", PStr (lit "chat"))]).
Proof.
  apply (event_read_through_three_fields (ucd := latin1_table)
           [(lit "type", PStr (lit "chat"));
            (lit "timestamp", PInt 1);
            (lit "data", PDict [(lit "msg", PStr (lit "hi"))])]
           [(lit "id", PInt 41);
            (lit "data", PDict [(lit "msg", PStr (lit "hi"))]);
            (lit "timestamp", PNone);
            (lit "type", PStr (lit "chat"))]
           eq_refl eq_refl).
  split; discriminate.
Defined.

Lemma state_lines_until_missing_field_sample :
  report_state (ucd := latin1_table)
    (serve (events_reply scenario_events)
           (Response (Json (PDict state_without_mode)))) =
    ([EPrint ([NEWLINE] ++ str_mul (lit "-") 50);
      EPrint (lit "Current bot state:");
      EGet STATE_URL;
      EPrint (lit "Health: 20/20");
      EPrint (lit "Food: 18/20");
      EPrint (lit "Position: [0, 64, 0]");
      EPrint (lit "Error getting state: 'gameMode'");
      EPrint (lit "Bot may be disconnected")], Done tt).
Proof.
  exact (proj2 (proj2 (proj2
           (state_lines_until_missing_field (ucd := latin1_table)
              (serve (events_reply scenario_events)
                     (Response (Json (PDict state_without_mode))))
              state_without_mode eq_refl)))
           (PInt 20) (PInt 18) (PList [PInt 0; PInt 64; PInt 0])
           eq_refl eq_refl eq_refl eq_refl eq_refl eq_refl eq_refl).
Defined.

Lemma state_not_an_object_reported_sample :
  exists msg,
    getitem (PList []) (lit "health") = raise (TypeError msg) /\
    report_state (ucd := latin1_table)
      (serve (events_reply scenario_events) (Response (Json (PList [])))) =
      ([EPrint ([NEWLINE] ++ str_mul (lit "-") 50);
        EPrint (lit "Current bot state:");
        EGet STATE_URL;
        EPrint (lit "Error getting state: " ++ msg);
        EPrint (lit "Bot may be disconnected")], Done tt).
Proof.
  apply (state_not_an_object_reported (ucd := latin1_table)
           (serve (events_reply scenario_events) (Response (Json (PList []))))
           (PList []) eq_refl).
  discriminate.
Defined.

Lemma state_read_through_four_fields_sample :
  report_state (ucd := latin1_table) scenario_service =
  report_state (ucd := latin1_table)
    (serve refused (Response (Json state_with_extras))).
Proof.
  apply (state_read_through_four_fields (ucd := latin1_table)
           scenario_service
           (serve refused (Response (Json state_with_extras)))
           _ _ eq_refl eq_refl).
  intros field [<- | [<- | [<- | [<- | []]]]]; reflexivity.
Defined.

Lemma normal_run_ends_with_verdict_sample :
  exists before verdict,
    effects (verify_respawn (ucd := latin1_table) scenario_service) =
      before ++ [EPrint verdict] /\
    (verdict = ALIVE_MESSAGE \/ verdict = lit "Bot may be disconnected").
Proof.
  exact (normal_run_ends_with_verdict (ucd := latin1_table)
           scenario_service eq_refl).
Defined.

Lemma run_reads_events_entry_only_sample :
  verify_respawn (ucd := latin1_table) scenario_service =
  verify_respawn (ucd := latin1_table)
    (serve (Response (Json (PDict [(lit "count", PInt 2);
                                   (lit "events", PList scenario_events)])))
           (Response (Json scenario_state))).
Proof.
  exact (run_reads_events_entry_only (ucd := latin1_table)
           scenario_service
           (serve (Response (Json (PDict [(lit "count", PInt 2);
                                          (lit "events",
                                           PList scenario_events)])))
                  (Response (Json scenario_state)))
           _ _ eq_refl eq_refl eq_refl eq_refl).
Defined.
